(** * Parts-sales spreadsheet importer: header mapping, row staging, batch status

    A shallow embedding of [importPartsSalesXlsx] and its helpers
    ([normalizeHeader], [buildHeaderMap], [CanonicalRowSchema]) together
    with the properties of the import pipeline that the specification
    states.

    Conventions of the embedding.
    - A JavaScript string is the list of its UTF-16 code units ([jstring]).
      Literals are written as UTF-8 text and decoded by [utf16].
    - Property names of the alias table, of [map] and of [rawObj] are the
      eleven canonical identifiers; they are kept as [string]s and the
      objects are finite maps ([gmap]).
    - The worksheet is given as the value of [XLSX.utils.sheet_to_json]
      (an array of rows); reading the buffer is the library's business.
    - The persistence layer is a store with three tables; the operations on
      it are written in a state-and-exception monad.  The schema of the
      database is not among the sources: creations and upserts are taken
      to succeed, and an update throws only when its record is missing. *)

From stdpp Require Import base list gmap strings sorting pretty.

Local Open Scope N_scope.

(** ** JavaScript strings *)

Abbreviation jstring := (list N).

(** Decoding of a UTF-8 byte sequence into UTF-16 code units. *)
Fixpoint utf8_decode (bs : list N) : jstring :=
  match bs with
  | [] => []
  | b :: rest =>
      if b <? 128 then b :: utf8_decode rest
      else if b <? 224 then
        match rest with
        | b1 :: rest1 =>
            N.lor (N.shiftl (N.land b 31) 6) (N.land b1 63) :: utf8_decode rest1
        | _ => []
        end
      else if b <? 240 then
        match rest with
        | b1 :: b2 :: rest2 =>
            N.lor (N.shiftl (N.land b 15) 12)
              (N.lor (N.shiftl (N.land b1 63) 6) (N.land b2 63))
            :: utf8_decode rest2
        | _ => []
        end
      else
        match rest with
        | b1 :: b2 :: b3 :: rest3 =>
            let cp :=
              N.lor (N.shiftl (N.land b 7) 18)
                (N.lor (N.shiftl (N.land b1 63) 12)
                   (N.lor (N.shiftl (N.land b2 63) 6) (N.land b3 63))) in
            let v := cp - 65536 in
            (55296 + N.shiftr v 10) :: (56320 + N.land v 1023)
            :: utf8_decode rest3
        | _ => []
        end
  end.

Definition utf16 (s : string) : jstring :=
  utf8_decode (Ascii.N_of_ascii <$> String.list_ascii_of_string s).

(** The code units matched by [\s] and removed by [String.prototype.trim]:
    WhiteSpace and LineTerminator of ECMA-262. *)
Definition is_ws (c : N) : bool :=
  ((9 <=? c) && (c <=? 13))
  || (c =? 32) || (c =? 160) || (c =? 5760)
  || ((8192 <=? c) && (c <=? 8202))
  || (c =? 8232) || (c =? 8233) || (c =? 8239) || (c =? 8287)
  || (c =? 12288) || (c =? 65279).

Fixpoint trimStart (s : jstring) : jstring :=
  match s with
  | c :: s' => if is_ws c then trimStart s' else s
  | [] => []
  end.

Definition trim (s : jstring) : jstring :=
  reverse (trimStart (reverse (trimStart s))).

(** [s.replace(/\s+/g, "")] *)
Definition remove_ws (s : jstring) : jstring :=
  filter (λ c, is_ws c = false) s.

(** [s.replace(/：/g, ":")]: U+FF1A becomes U+003A. *)
Definition replace_fullwidth_colon (s : jstring) : jstring :=
  (λ c, if c =? 65306 then 58 else c) <$> s.

(** [normalizeHeader]; its argument is a string wherever it is called, so
    [String(s ?? "")] is the identity. *)
Definition normalizeHeader (s : jstring) : jstring :=
  replace_fullwidth_colon (remove_ws (trim s)).

(** ** The alias table and [buildHeaderMap] *)

Definition headerAliases : list (string * list jstring) :=
  [ ("branchCode",  [utf16 "據點"; utf16 "廠別"; utf16 "服務廠"]);
    ("checkoutNo",  [utf16 "結帳單號"; utf16 "結算單號"]);
    ("itemId",      [utf16 "項目ID"; utf16 "項目Id"; utf16 "項次"]);
    ("workOrderNo", [utf16 "工單號"; utf16 "工作單號"; utf16 "工作單號碼"]);
    ("partNo",      [utf16 "零件編號"; utf16 "料號"]);
    ("partName",    [utf16 "零件名稱"; utf16 "品名"]);
    ("qty",         [utf16 "銷售數量"; utf16 "數量"; utf16 "數量(銷售)"]);
    ("saleAmount",  [utf16 "實際售價"; utf16 "銷售金額"; utf16 "售價"]);
    ("costAmount",  [utf16 "成本總價"; utf16 "成本金額"; utf16 "成本"]);
    ("advisorName", [utf16 "接待人員"; utf16 "服務顧問"; utf16 "顧問"]);
    ("salesName",   [utf16 "銷售人員"; utf16 "零件銷售"; utf16 "銷售"]) ]%string.

(** [Array.prototype.includes] on an array of strings. *)
Definition includes (l : list jstring) (x : jstring) : bool :=
  bool_decide (x ∈ l).

(** [Array.prototype.findIndex]; [None] stands for the result [-1]. *)
Fixpoint findIndex {A} (p : A → bool) (l : list A) : option nat :=
  match l with
  | [] => None
  | x :: l' => if p x then Some 0%nat else S <$> findIndex p l'
  end.

Record HeaderMap := {
  hm_map : gmap string nat;
  hm_unknown : list jstring;
  hm_normHeaders : list jstring;
}.

(** One turn of the loop over [Object.entries(headerAliases)]:
    [const idx = normHeaders.findIndex((h) =>
       aliases.map(normalizeHeader).includes(h));
     if (idx >= 0) map[canonical] = idx;] *)
Definition fill_step (normHeaders : list jstring) (map : gmap string nat)
    (entry : string * list jstring) : gmap string nat :=
  match findIndex (includes (normalizeHeader <$> entry.2)) normHeaders with
  | Some idx => <[entry.1 := idx]> map
  | None => map
  end.

Definition fill_map (table : list (string * list jstring))
    (normHeaders : list jstring) : gmap string nat :=
  foldl (fill_step normHeaders) ∅ table.

(** [Object.values(headerAliases).flat().map(normalizeHeader)] *)
Definition all_aliases_normalized : list jstring :=
  normalizeHeader <$> concat (snd <$> headerAliases).

Definition is_unknown_header (h : jstring) : bool :=
  negb (includes all_aliases_normalized (normalizeHeader h)).

Definition buildHeaderMap (headers : list jstring) : HeaderMap :=
  let normHeaders := normalizeHeader <$> headers in
  {| hm_map := fill_map headerAliases normHeaders;
     hm_unknown := filter (λ h, is_unknown_header h = true) headers;
     hm_normHeaders := normHeaders |}.

(** ** [Number(s)] for a string [s] (StringToNumber of ECMA-262)

    The result is kept as the exact decimal value [digits * 10 ^ exp10];
    the rounding of that value to an IEEE double is not modelled.  The
    sign is kept apart, so that [-0] and [+0] are told apart as in the
    language. *)

Inductive JsNumber :=
  | NaN
  | Infinity (negative : bool)
  | Decimal (negative : bool) (digits : N) (exp10 : Z).

Definition isNaN (n : JsNumber) : bool :=
  match n with NaN => true | _ => false end.


(** The value of a code unit as a digit in [base], when it has one. *)
Definition digit_value (base c : N) : option N :=
  let v :=
    if (48 <=? c) && (c <=? 57) then Some (c - 48)
    else if (97 <=? c) && (c <=? 102) then Some (c - 87)
    else if (65 <=? c) && (c <=? 70) then Some (c - 55)
    else None in
  match v with
  | Some d => if d <? base then Some d else None
  | None => None
  end.

(** The longest prefix of digits, as a number and a digit count, and the
    rest of the string. *)
Fixpoint read_digits (base : N) (acc : N) (count : nat) (s : jstring)
  : N * nat * jstring :=
  match s with
  | c :: s' =>
      match digit_value base c with
      | Some d => read_digits base (acc * base + d) (S count) s'
      | None => (acc, count, s)
      end
  | [] => (acc, count, [])
  end.

(** ExponentPart (optional), then the end of the string. *)
Definition read_exponent (neg : bool) (m : N) (e0 : Z) (s : jstring) : JsNumber :=
  match s with
  | [] => Decimal neg m e0
  | c :: s1 =>
      if (c =? 101) || (c =? 69) then
        let '(eneg, s2) :=
          match s1 with
          | 43 :: s2 => (false, s2)
          | 45 :: s2 => (true, s2)
          | _ => (false, s1)
          end in
        match read_digits 10 0 0 s2 with
        | (_, O, _) => NaN
        | (e, _, []) =>
            Decimal neg m (if eneg then e0 - Z.of_N e else e0 + Z.of_N e)%Z
        | _ => NaN
        end
      else NaN
  end.

(** StrUnsignedDecimalLiteral *)
Definition read_unsigned_decimal (neg : bool) (s : jstring) : JsNumber :=
  if bool_decide (s = utf16 "Infinity") then Infinity neg
  else
    let '(ip, ni, s1) := read_digits 10 0 0 s in
    match s1 with
    | 46 :: s2 =>
        let '(m, nf, s3) := read_digits 10 ip 0 s2 in
        match ni, nf with
        | O, O => NaN
        | _, _ => read_exponent neg m (- Z.of_nat nf) s3
        end
    | _ =>
        match ni with
        | O => NaN
        | _ => read_exponent neg ip 0 s1
        end
    end.

(** NonDecimalIntegerLiteral: [0b], [0o], [0x] and their capitals. *)
Definition read_non_decimal (s : jstring) : option JsNumber :=
  match s with
  | 48 :: x :: s' =>
      let base :=
        if (x =? 98) || (x =? 66) then Some 2
        else if (x =? 111) || (x =? 79) then Some 8
        else if (x =? 120) || (x =? 88) then Some 16
        else None in
      match base with
      | Some b =>
          match read_digits b 0 0 s' with
          | (_, O, _) => Some NaN
          | (v, _, []) => Some (Decimal false v 0)
          | _ => Some NaN
          end
      | None => None
      end
  | _ => None
  end.

Definition Number (s : jstring) : JsNumber :=
  match trim s with
  | [] => Decimal false 0 0
  | t =>
      match read_non_decimal t with
      | Some n => n
      | None =>
          match t with
          | 43 :: t' => read_unsigned_decimal false t'
          | 45 :: t' => read_unsigned_decimal true t'
          | _ => read_unsigned_decimal false t
          end
      end
  end.

(** ** [JSON.stringify] of an array of strings *)

Definition hex_digit (d : N) : N := if d <? 10 then 48 + d else 87 + d.

(** [\uXXXX] with lower-case hexadecimal digits. *)
Definition unicode_escape (c : N) : jstring :=
  [92; 117; hex_digit (N.land (N.shiftr c 12) 15);
   hex_digit (N.land (N.shiftr c 8) 15);
   hex_digit (N.land (N.shiftr c 4) 15); hex_digit (N.land c 15)].

Definition is_high_surrogate (c : N) : bool := (55296 <=? c) && (c <=? 56319).
Definition is_low_surrogate (c : N) : bool := (56320 <=? c) && (c <=? 57343).

(** QuoteJSONString, without the surrounding quotes. *)
Fixpoint json_escape (s : jstring) : jstring :=
  match s with
  | [] => []
  | c :: s' =>
      if c =? 8 then [92; 98] ++ json_escape s'
      else if c =? 9 then [92; 116] ++ json_escape s'
      else if c =? 10 then [92; 110] ++ json_escape s'
      else if c =? 12 then [92; 102] ++ json_escape s'
      else if c =? 13 then [92; 114] ++ json_escape s'
      else if c =? 34 then [92; 34] ++ json_escape s'
      else if c =? 92 then [92; 92] ++ json_escape s'
      else if c <? 32 then unicode_escape c ++ json_escape s'
      else if is_high_surrogate c then
        match s' with
        | c' :: s'' =>
            if is_low_surrogate c' then c :: c' :: json_escape s''
            else unicode_escape c ++ json_escape s'
        | [] => unicode_escape c
        end
      else if is_low_surrogate c then unicode_escape c ++ json_escape s'
      else c :: json_escape s'
  end.

Definition json_string (s : jstring) : jstring := [34] ++ json_escape s ++ [34].

Fixpoint join_comma (l : list jstring) : jstring :=
  match l with
  | [] => []
  | [x] => x
  | x :: l' => x ++ [44] ++ join_comma l'
  end.

Definition JSON_stringify (l : list jstring) : jstring :=
  [91] ++ join_comma (json_string <$> l) ++ [93].

(** ** [Array.prototype.sort] with the default comparison

    Strings are compared by code units; a proper prefix comes first.  The
    language fixes the result (the sort is stable and two strings that
    compare equal are the same string), so any sorting algorithm models
    it. *)

Fixpoint str_leb (a b : jstring) : bool :=
  match a, b with
  | [], _ => true
  | _ :: _, [] => false
  | x :: a', y :: b' => (x <? y) || ((x =? y) && str_leb a' b')
  end.

Definition str_le (a b : jstring) : Prop := str_leb a b = true.

#[global] Instance str_le_dec a b : Decision (str_le a b).
Proof. unfold str_le. apply _. Defined.

Definition sort (l : list jstring) : list jstring := merge_sort str_le l.

Section Importer.

(** ** Cells, rows and the external functions

    A cell of the sheet is whatever [sheet_to_json] yields: a string, a
    number, a boolean, [null] for an error cell, or nothing at all when the
    row is shorter than the header.  The importer reads a numeric cell only
    through [String(v)], so numbers are kept abstract together with their
    rendering.  The digest of [crypto] and the treatment of infinite numbers
    by the validation library (accepted by its version 3, refused by its
    version 4) are left open in the same way. *)

Variable num : Type.
Variable numToString : num → jstring.
Variable sha256_hex : jstring → jstring.
Variable finite_only : bool.

Inductive Cell :=
  | CUndefined
  | CNull
  | CString (s : jstring)
  | CNumber (n : num)
  | CBoolean (b : bool).

Abbreviation Row := (list Cell).

(** [String(v ?? "")] *)
Definition cell_string (v : Cell) : jstring :=
  match v with
  | CUndefined | CNull => []
  | CString s => s
  | CNumber n => numToString n
  | CBoolean true => utf16 "true"
  | CBoolean false => utf16 "false"
  end.

(** [String(v ?? "").trim() === ""] *)
Definition is_blank (v : Cell) : bool :=
  bool_decide (trim (cell_string v) = []).

(** [r[idx]]: reading past the end of an array gives [undefined]. *)
Definition cell_at (r : Row) (idx : nat) : Cell := default CUndefined (r !! idx).

(** ** Decoding of one row *)

(** [for (const [canonical, idx] of Object.entries(map))
       rawObj[canonical] = String(r[idx] ?? "").trim()] *)
Definition build_rawObj (map : gmap string nat) (r : Row) : gmap string jstring :=
  (λ idx, trim (cell_string (cell_at r idx))) <$> map.

(** [o[k] = v] on a plain object, for a primitive [v]: the property is
    set, except that the key [__proto__] reaches the prototype setter,
    which ignores primitives. *)
Definition obj_set (o : gmap jstring Cell) (k : jstring) (v : Cell)
  : gmap jstring Cell :=
  if bool_decide (k = utf16 "__proto__") then o else <[k := v]> o.

(** The body of [headers.forEach((h, idx) => ...)], from column [idx] on. *)
Fixpoint collect_unknown (unknown : list jstring) (r : Row)
    (headers : list jstring) (idx : nat) (unknownObj : gmap jstring Cell)
  : gmap jstring Cell :=
  match headers with
  | [] => unknownObj
  | h :: headers' =>
      collect_unknown unknown r headers' (S idx)
        (if includes unknown h then
           let v := cell_at r idx in
           if is_blank v then unknownObj else obj_set unknownObj h v
         else unknownObj)
  end.

Definition build_unknownObj (unknown : list jstring) (headers : list jstring)
    (r : Row) : gmap jstring Cell :=
  collect_unknown unknown r headers 0 ∅.

(** ** [CanonicalRowSchema] *)

Record CanonicalRow := {
  d_branchCode : jstring;
  d_checkoutNo : jstring;
  d_itemId : jstring;
  d_partNo : jstring;
  d_workOrderNo : option jstring;
  d_partName : option jstring;
  d_qty : option JsNumber;
  d_saleAmount : option JsNumber;
  d_costAmount : option JsNumber;
  d_advisorName : option jstring;
  d_salesName : option jstring;
}.

(** [z.string().min(1)] on a property that holds a string or is absent. *)
Definition z_string_min1 (v : option jstring) : option jstring :=
  match v with
  | Some (c :: s) => Some (c :: s)
  | _ => None
  end.

(** [z.string().optional()] *)
Definition z_string_optional (v : option jstring) : option (option jstring) :=
  Some v.

(** [z.number()] after the coercion: NaN is refused, and so is an infinite
    value when the library is one that refuses them. *)
Definition z_number (n : JsNumber) : option JsNumber :=
  match n with
  | NaN => None
  | Infinity _ => if finite_only then None else Some n
  | Decimal _ _ _ => Some n
  end.

(** [z.coerce.number().optional()]: an absent property stays absent, a
    present one goes through [Number]. *)
Definition z_coerce_number_optional (v : option jstring)
  : option (option JsNumber) :=
  match v with
  | None => Some None
  | Some s => Some <$> z_number (Number s)
  end.

(** [CanonicalRowSchema.safeParse(rawObj)]; [None] is [success: false]. *)
Definition safeParse (rawObj : gmap string jstring) : option CanonicalRow :=
  branchCode ← z_string_min1 (rawObj !! "branchCode"%string);
  checkoutNo ← z_string_min1 (rawObj !! "checkoutNo"%string);
  itemId ← z_string_min1 (rawObj !! "itemId"%string);
  partNo ← z_string_min1 (rawObj !! "partNo"%string);
  workOrderNo ← z_string_optional (rawObj !! "workOrderNo"%string);
  partName ← z_string_optional (rawObj !! "partName"%string);
  qty ← z_coerce_number_optional (rawObj !! "qty"%string);
  saleAmount ← z_coerce_number_optional (rawObj !! "saleAmount"%string);
  costAmount ← z_coerce_number_optional (rawObj !! "costAmount"%string);
  advisorName ← z_string_optional (rawObj !! "advisorName"%string);
  salesName ← z_string_optional (rawObj !! "salesName"%string);
  Some {| d_branchCode := branchCode; d_checkoutNo := checkoutNo;
          d_itemId := itemId; d_partNo := partNo;
          d_workOrderNo := workOrderNo; d_partName := partName;
          d_qty := qty; d_saleAmount := saleAmount;
          d_costAmount := costAmount; d_advisorName := advisorName;
          d_salesName := salesName |}.

(** ** The persistence layer *)

Inductive ImportStatus := STAGED | TRANSFORMED.

Record ImportBatch := {
  ib_id : nat;
  ib_reportType : string;
  ib_mappingVersion : string;
  ib_fileName : option jstring;
  ib_headerSignature : jstring;
  ib_headerColumns : list jstring;
  ib_unknownColumns : list jstring;
  ib_status : ImportStatus;
  (* the counters are not given at creation: [None] is the column default *)
  ib_errorCount : option nat;
  ib_stagedCount : option nat;
  ib_canonicalCount : option nat;
}.

Record StagingRow := {
  sr_batchId : nat;
  sr_rowIndex : nat;
  sr_data : gmap string jstring;
  sr_unknown : option (gmap jstring Cell);
}.

Record PartsSalesLine := {
  psl_batchId : nat;
  psl_branchCode : jstring;
  psl_checkoutNo : jstring;
  psl_itemId : jstring;
  psl_workOrderNo : option jstring;
  psl_workOrderKey : option jstring;
  psl_partNo : jstring;
  psl_partName : option jstring;
  psl_qty : option JsNumber;
  psl_saleAmount : option JsNumber;
  psl_costAmount : option JsNumber;
  psl_advisorName : option jstring;
  psl_salesName : option jstring;
}.

(** The three tables.  Batches are keyed by their identifier and canonical
    lines by the unique triple (branchCode, checkoutNo, itemId); staging
    rows are an append-only log. *)
Record Store := {
  importBatch : gmap nat ImportBatch;
  stagingRow : list StagingRow;
  partsSalesLine : gmap (jstring * jstring * jstring) PartsSalesLine;
}.

Inductive Exn :=
  | Error (message : jstring)
  | TypeError
  | RecordNotFound.

(** Computations that read and write the store and may throw; what was
    written before a throw stays written. *)
Record Prisma (A : Type) := MkPrisma { run : Store → Store * (Exn + A) }.
Arguments MkPrisma {A} _.
Arguments run {A} _ _.

#[global] Instance Prisma_ret : MRet Prisma :=
  λ A x, MkPrisma (λ s, (s, inr x)).

#[global] Instance Prisma_bind : MBind Prisma :=
  λ A B f m, MkPrisma (λ s,
    match run m s with
    | (s', inr x) => run (f x) s'
    | (s', inl e) => (s', inl e)
    end).

Definition throw {A} (e : Exn) : Prisma A := MkPrisma (λ s, (s, inl e)).

(** An identifier that no batch of the table has. *)
Definition fresh_id (t : gmap nat ImportBatch) : nat := fresh (dom t).

Record BatchCreate := {
  bc_fileName : option jstring;
  bc_headerSignature : jstring;
  bc_headerColumns : list jstring;
  bc_unknownColumns : list jstring;
}.

(** [prisma.importBatch.create] with [reportType: "parts_sales"],
    [mappingVersion: MappingVersion] and [status: STAGED]. *)
Definition MappingVersion : string := "v1".

Definition importBatch_create (data : BatchCreate) : Prisma ImportBatch :=
  MkPrisma (λ s,
    let b := {| ib_id := fresh_id (importBatch s);
                ib_reportType := "parts_sales";
                ib_mappingVersion := MappingVersion;
                ib_fileName := bc_fileName data;
                ib_headerSignature := bc_headerSignature data;
                ib_headerColumns := bc_headerColumns data;
                ib_unknownColumns := bc_unknownColumns data;
                ib_status := STAGED;
                ib_errorCount := None;
                ib_stagedCount := None;
                ib_canonicalCount := None |} in
    ({| importBatch := <[ib_id b := b]> (importBatch s);
        stagingRow := stagingRow s;
        partsSalesLine := partsSalesLine s |}, inr b)).

(** [prisma.stagingRow.create] *)
Definition stagingRow_create (row : StagingRow) : Prisma unit :=
  MkPrisma (λ s,
    ({| importBatch := importBatch s;
        stagingRow := stagingRow s ++ [row];
        partsSalesLine := partsSalesLine s |}, inr tt)).

(** In the [update] branch of an upsert a property that is [undefined]
    leaves the column as it is. *)
Definition set_or_keep {A} (new old : option A) : option A :=
  match new with
  | Some x => Some x
  | None => old
  end.

(** [d.workOrderNo && d.branchCode ? `${d.branchCode}_${d.workOrderNo}`
    : undefined] *)
Definition workOrderKey (d : CanonicalRow) : option jstring :=
  match d_workOrderNo d, d_branchCode d with
  | Some (c :: w), b :: bs => Some ((b :: bs) ++ [95] ++ (c :: w))
  | _, _ => None
  end.

(** [prisma.partsSalesLine.upsert] on the unique triple. *)
Definition partsSalesLine_upsert (batchId : nat) (d : CanonicalRow)
  : Prisma unit :=
  MkPrisma (λ s,
    let key := (d_branchCode d, d_checkoutNo d, d_itemId d) in
    let line :=
      match partsSalesLine s !! key with
      | Some old =>
          {| psl_batchId := psl_batchId old;
             psl_branchCode := psl_branchCode old;
             psl_checkoutNo := psl_checkoutNo old;
             psl_itemId := psl_itemId old;
             psl_workOrderNo := set_or_keep (d_workOrderNo d) (psl_workOrderNo old);
             psl_workOrderKey := set_or_keep (workOrderKey d) (psl_workOrderKey old);
             psl_partNo := d_partNo d;
             psl_partName := set_or_keep (d_partName d) (psl_partName old);
             psl_qty := set_or_keep (d_qty d) (psl_qty old);
             psl_saleAmount := set_or_keep (d_saleAmount d) (psl_saleAmount old);
             psl_costAmount := set_or_keep (d_costAmount d) (psl_costAmount old);
             psl_advisorName := set_or_keep (d_advisorName d) (psl_advisorName old);
             psl_salesName := set_or_keep (d_salesName d) (psl_salesName old) |}
      | None =>
          {| psl_batchId := batchId;
             psl_branchCode := d_branchCode d;
             psl_checkoutNo := d_checkoutNo d;
             psl_itemId := d_itemId d;
             psl_workOrderNo := d_workOrderNo d;
             psl_workOrderKey := workOrderKey d;
             psl_partNo := d_partNo d;
             psl_partName := d_partName d;
             psl_qty := d_qty d;
             psl_saleAmount := d_saleAmount d;
             psl_costAmount := d_costAmount d;
             psl_advisorName := d_advisorName d;
             psl_salesName := d_salesName d |}
      end in
    ({| importBatch := importBatch s;
        stagingRow := stagingRow s;
        partsSalesLine := <[key := line]> (partsSalesLine s) |}, inr tt)).

(** The three counters of the loop. *)
Record Counters := {
  c_errorCount : nat;
  c_stagedCount : nat;
  c_canonicalCount : nat;
}.

(** [prisma.importBatch.update({ where: { id }, data: { status, errorCount,
    stagedCount, canonicalCount } })]; it throws when there is no such
    record. *)
Definition importBatch_update (id : nat) (status : ImportStatus) (c : Counters)
  : Prisma unit :=
  MkPrisma (λ s,
    match importBatch s !! id with
    | None => (s, inl RecordNotFound)
    | Some b =>
        let b' := {| ib_id := ib_id b;
                     ib_reportType := ib_reportType b;
                     ib_mappingVersion := ib_mappingVersion b;
                     ib_fileName := ib_fileName b;
                     ib_headerSignature := ib_headerSignature b;
                     ib_headerColumns := ib_headerColumns b;
                     ib_unknownColumns := ib_unknownColumns b;
                     ib_status := status;
                     ib_errorCount := Some (c_errorCount c);
                     ib_stagedCount := Some (c_stagedCount c);
                     ib_canonicalCount := Some (c_canonicalCount c) |} in
        ({| importBatch := <[id := b']> (importBatch s);
            stagingRow := stagingRow s;
            partsSalesLine := partsSalesLine s |}, inr tt)
    end).

(** ** [importPartsSalesXlsx] *)

Definition requiredKeys : list string :=
  ["branchCode"; "checkoutNo"; "itemId"; "partNo"]%string.

(** [requiredKeys.filter((k) => map[k] === undefined)] *)
Definition missing_required (map : gmap string nat) : list string :=
  filter (λ k, map !! k = None) requiredKeys.

(** [createHash("sha256").update(JSON.stringify([...normHeaders].sort()))
    .digest("hex")] *)
Definition headerSignature (normHeaders : list jstring) : jstring :=
  sha256_hex (JSON_stringify (sort normHeaders)).

(** [r.every((v) => String(v ?? "").trim() === "")] *)
Definition all_blank (r : Row) : bool := forallb is_blank r.

(** The body of the loop for row [i]; an absent row is [None]. *)
Definition process_row (batchId : nat) (hm : HeaderMap) (headers : list jstring)
    (missingRequired : list string) (i : nat) (r : option Row) (c : Counters)
  : Prisma Counters :=
  match r with
  | None => mret c
  | Some r =>
      if all_blank r then mret c
      else
        let rawObj := build_rawObj (hm_map hm) r in
        let unknownObj := build_unknownObj (hm_unknown hm) headers r in
        stagingRow_create
          {| sr_batchId := batchId;
             sr_rowIndex := i;
             sr_data := rawObj;
             sr_unknown :=
               if bool_decide (unknownObj = ∅) then None else Some unknownObj |};;
        let c := {| c_errorCount := c_errorCount c;
                    c_stagedCount := S (c_stagedCount c);
                    c_canonicalCount := c_canonicalCount c |} in
        match missingRequired with
        | _ :: _ =>
            mret {| c_errorCount := S (c_errorCount c);
                    c_stagedCount := c_stagedCount c;
                    c_canonicalCount := c_canonicalCount c |}
        | [] =>
            match safeParse rawObj with
            | None =>
                mret {| c_errorCount := S (c_errorCount c);
                        c_stagedCount := c_stagedCount c;
                        c_canonicalCount := c_canonicalCount c |}
            | Some d =>
                partsSalesLine_upsert batchId d;;
                mret {| c_errorCount := c_errorCount c;
                        c_stagedCount := c_stagedCount c;
                        c_canonicalCount := S (c_canonicalCount c) |}
            end
        end
  end.

(** [for (let i = ...; i < rows.length; i++)] over the rows from [i] on. *)
Fixpoint process_rows (batchId : nat) (hm : HeaderMap) (headers : list jstring)
    (missingRequired : list string) (i : nat) (rs : list (option Row))
    (c : Counters) : Prisma Counters :=
  match rs with
  | [] => mret c
  | r :: rs' =>
      c' ← process_row batchId hm headers missingRequired i r c;
      process_rows batchId hm headers missingRequired (S i) rs' c'
  end.

Record Result := {
  batchId : nat;
  stagedCount : nat;
  canonicalCount : nat;
  errorCount : nat;
  missingRequired : list string;
  unknownColumns : list jstring;
}.

Definition no_data_rows : Exn := Error (utf16 "檔案看起來沒有資料列").

(** The import, from the rows of the first worksheet on.  [rows[0].map]
    throws a TypeError when the first row is not there. *)
Definition importPartsSalesXlsx (fileName : option jstring)
    (rows : list (option Row)) : Prisma Result :=
  if (length rows <? 2)%nat then throw no_data_rows
  else
    match rows with
    | Some row0 :: _ =>
        let headers := cell_string <$> row0 in
        let hm := buildHeaderMap headers in
        let missing := missing_required (hm_map hm) in
        batch ← importBatch_create
          {| bc_fileName := fileName;
             bc_headerSignature := headerSignature (hm_normHeaders hm);
             bc_headerColumns := headers;
             bc_unknownColumns := hm_unknown hm |};
        c ← process_rows (ib_id batch) hm headers missing 1 (drop 1 rows)
              {| c_errorCount := 0; c_stagedCount := 0; c_canonicalCount := 0 |};
        importBatch_update (ib_id batch)
          (if (0 <? c_errorCount c)%nat then STAGED else TRANSFORMED) c;;
        mret {| batchId := ib_id batch;
                stagedCount := c_stagedCount c;
                canonicalCount := c_canonicalCount c;
                errorCount := c_errorCount c;
                missingRequired := missing;
                unknownColumns := hm_unknown hm |}
    | _ => throw TypeError
    end.

End Importer.

Arguments CUndefined {num}.
Arguments CNull {num}.
Arguments CString {num} s.
Arguments CNumber {num} n.
Arguments CBoolean {num} b.
Arguments cell_string {num} numToString v.
Arguments is_blank {num} numToString v.
Arguments cell_at {num} r idx.
Arguments build_rawObj {num} numToString map r.
Arguments obj_set {num} o k v.
Arguments collect_unknown {num} numToString unknown r headers idx unknownObj.
Arguments build_unknownObj {num} numToString unknown headers r.
Arguments Build_StagingRow {num} _ _ _ _.
Arguments sr_batchId {num} _.
Arguments sr_rowIndex {num} _.
Arguments sr_data {num} _.
Arguments sr_unknown {num} _.
Arguments Build_Store {num} _ _ _.
Arguments importBatch {num} _.
Arguments stagingRow {num} _.
Arguments partsSalesLine {num} _.
Arguments MkPrisma {num A} _.
Arguments run {num A} _ _.
Arguments throw {num A} e.
Arguments importBatch_create {num} data.
Arguments stagingRow_create {num} row.
Arguments partsSalesLine_upsert {num} batchId d.
Arguments importBatch_update {num} id status c.
Arguments all_blank {num} numToString r.
Arguments process_row {num} numToString finite_only batchId hm headers
  missingRequired i r c.
Arguments process_rows {num} numToString finite_only batchId hm headers
  missingRequired i rs c.
Arguments importPartsSalesXlsx {num} numToString sha256_hex finite_only
  fileName rows.

(** ** The upload route *)

Section Route.

(** The handler of [POST /api/upload].  Reading the workbook
    ([XLSX.read] and [sheet_to_json] of the first sheet, the first lines
    of [importPartsSalesXlsx]) is the library's business: it is a function
    from the bytes of the file to the rows, which may throw. *)

Variable num : Type.
Variable numToString : num → jstring.
Variable sha256_hex : jstring → jstring.
Variable finite_only : bool.
Variable read_first_sheet : list N → Exn + list (option (list (Cell num))).

(** [form.get("file")]: nothing, a text, or a file. *)
Inductive FormDataEntry :=
  | NoEntry
  | TextEntry (value : jstring)
  | FileEntry (name : jstring) (content : list N).

(** [NextResponse.json(body, { status })] *)
Inductive ResponseBody :=
  | ErrorBody (error : jstring)
  | ResultBody (result : Result).

Record Response := {
  status : nat;
  body : ResponseBody;
}.

(** [importPartsSalesXlsx({ fileName, buffer })], reading included. *)
Definition importPartsSalesXlsx_buffer (fileName : option jstring)
    (buffer : list N) : Prisma num Result :=
  match read_first_sheet buffer with
  | inl e => throw e
  | inr rows =>
      importPartsSalesXlsx numToString sha256_hex finite_only fileName rows
  end.

Definition POST (file : FormDataEntry) : Prisma num Response :=
  match file with
  | FileEntry name content =>
      result ← importPartsSalesXlsx_buffer (Some name) content;
      mret {| status := 200; body := ResultBody result |}
  | _ => mret {| status := 400; body := ErrorBody (utf16 "缺少檔案 file") |}
  end.

End Route.

Arguments importPartsSalesXlsx_buffer {num} numToString sha256_hex finite_only
  read_first_sheet fileName buffer.
Arguments POST {num} numToString sha256_hex finite_only read_first_sheet file.

(** ** A concrete instance: integer cells printed in decimal

    Used to run the importer on sample sheets.  The digest is replaced by
    the identity, which is enough to run the rest. *)

Definition decimal (z : Z) : jstring := utf16 (pretty z).

Definition plain_digest (s : jstring) : jstring := s.

Definition str (x : string) : Cell Z := CString (utf16 x).

Definition empty_store : Store Z :=
  {| importBatch := ∅; stagingRow := []; partsSalesLine := ∅ |}.

Definition run_import (rows : list (option (list (Cell Z))))
  : Store Z * (Exn + Result) :=
  run (importPartsSalesXlsx decimal plain_digest false None rows) empty_store.

(** The sheet of the first scenario of the specification, and two
    variations of it. *)
Definition sample_headers : list (Cell Z) :=
  [str "據點"; str "結帳單號"; str "項目ID"; str "料號"; str "數量"].

Definition sample_row : list (Cell Z) :=
  [str "A01"; str "C100"; CNumber 1%Z; str "P-9"; CNumber 5%Z].

Definition sample_sheet : list (option (list (Cell Z))) :=
  [Some sample_headers; Some sample_row].

Definition headers_without_itemId : list (Cell Z) :=
  [str "據點"; str "結帳單號"; str "料號"; str "數量"].

Definition row_without_itemId : list (Cell Z) :=
  [str "A01"; str "C100"; str "P-9"; CNumber 5%Z].

Definition row_bad_qty : list (Cell Z) :=
  [str "A01"; str "C100"; CNumber 1%Z; str "P-9"; str "abc"].

Definition row_blank_qty : list (Cell Z) :=
  [str "A01"; str "C100"; CNumber 1%Z; str "P-9"; str "  "].

Definition sample_blank_row : list (Cell Z) :=
  [str ""; str "  "; CNull; str ""; CUndefined].

(** Two unknown columns with one and the same header text. *)
Definition remark_headers : list (Cell Z) :=
  [str "據點"; str "備註"; str "備註"].

Definition remark_row : list (Cell Z) :=
  [str "A01"; str "x"; str "y"].

(** The header map of the sample sheet, and what the import of the sample
    sheet into the empty store returns. *)
Definition sample_map : HeaderMap :=
  buildHeaderMap (cell_string decimal <$> sample_headers).

Definition sample_result : Result :=
  {| batchId := 0;
     stagedCount := 1;
     canonicalCount := 1;
     errorCount := 0;
     missingRequired := [];
     unknownColumns := [] |}.

(** A reader for the sample sheets: the one-byte file 1 holds the sample
    sheet, the one-byte file 0 its header row alone, and anything else is
    not a workbook. *)
Definition sample_reader (content : list N)
  : Exn + list (option (list (Cell Z))) :=
  match content with
  | [1] => inr sample_sheet
  | [0] => inr [Some sample_headers]
  | _ => inl (Error (utf16 "not a workbook"))
  end.

(** The row of the sample sheet as the schema parses it. *)
Definition sample_parsed : CanonicalRow :=
  {| d_branchCode := utf16 "A01";
     d_checkoutNo := utf16 "C100";
     d_itemId := utf16 "1";
     d_partNo := utf16 "P-9";
     d_workOrderNo := None;
     d_partName := None;
     d_qty := Some (Decimal false 5 0);
     d_saleAmount := None;
     d_costAmount := None;
     d_advisorName := None;
     d_salesName := None |}.

(** A sheet with the work-order column, and its row as parsed. *)
Definition work_order_raw : gmap string jstring :=
  {[ "branchCode"%string := utf16 "A01";
     "checkoutNo"%string := utf16 "C100";
     "itemId"%string := utf16 "1";
     "partNo"%string := utf16 "P-9";
     "workOrderNo"%string := utf16 "W7" ]}.

Definition work_order_parsed : CanonicalRow :=
  {| d_branchCode := utf16 "A01";
     d_checkoutNo := utf16 "C100";
     d_itemId := utf16 "1";
     d_partNo := utf16 "P-9";
     d_workOrderNo := Some (utf16 "W7");
     d_partName := None;
     d_qty := None;
     d_saleAmount := None;
     d_costAmount := None;
     d_advisorName := None;
     d_salesName := None |}.

(** A row whose item id is blank. *)
Definition row_blank_itemId : list (Cell Z) :=
  [str "A01"; str "C100"; str " "; str "P-9"; CNumber 5%Z].

(** The store after the import of the sample sheet. *)
Definition sample_store : Store Z := (run_import sample_sheet).1.

(** The canonical line that the import of the sample sheet creates. *)
Definition sample_line : PartsSalesLine :=
  {| psl_batchId := 0;
     psl_branchCode := utf16 "A01";
     psl_checkoutNo := utf16 "C100";
     psl_itemId := utf16 "1";
     psl_workOrderNo := None;
     psl_workOrderKey := None;
     psl_partNo := utf16 "P-9";
     psl_partName := None;
     psl_qty := Some (Decimal false 5 0);
     psl_saleAmount := None;
     psl_costAmount := None;
     psl_advisorName := None;
     psl_salesName := None |}.

(** ** Vocabulary of the properties *)

(** A header matches a canonical field when its normalized form is one of
    the normalized aliases of the field. *)
Definition header_matches (aliases : list jstring) (h : jstring) : Prop :=
  normalizeHeader h ∈ normalizeHeader <$> aliases.

(** A string made of white space only (the empty string is one). *)
Definition whitespace_only (s : jstring) : Prop :=
  Forall (λ ch, is_ws ch = true) s.

(** A blank cell: nothing, or something that prints as white space only. *)
Definition blank_cell {num} (numToString : num → jstring) (v : Cell num) : Prop :=
  whitespace_only (cell_string numToString v).

(** A blank row: an absent row, or a row of blank cells. *)
Definition blank_row {num} (numToString : num → jstring)
    (r : option (list (Cell num))) : Prop :=
  match r with
  | None => True
  | Some cells => Forall (blank_cell numToString) cells
  end.

#[global] Instance blank_row_dec {num} (numToString : num → jstring) r :
  Decision (blank_row numToString r).
Proof. destruct r; unfold blank_row, blank_cell, whitespace_only; apply _. Defined.

(** The rows of a sheet that are not blank. *)
Definition non_blank_rows {num} (numToString : num → jstring)
    (data : list (option (list (Cell num)))) : list (option (list (Cell num))) :=
  filter (λ r, ¬ blank_row numToString r) data.

(** The three optional numeric fields, and how to read them in a parsed
    row and in a canonical line. *)
Definition numericKeys : list string := ["qty"; "saleAmount"; "costAmount"]%string.

Definition parsed_number (field : string) (d : CanonicalRow) : option JsNumber :=
  if bool_decide (field = "qty"%string) then d_qty d
  else if bool_decide (field = "saleAmount"%string) then d_saleAmount d
  else if bool_decide (field = "costAmount"%string) then d_costAmount d
  else None.

Definition line_number (field : string) (l : PartsSalesLine) : option JsNumber :=
  if bool_decide (field = "qty"%string) then psl_qty l
  else if bool_decide (field = "saleAmount"%string) then psl_saleAmount l
  else if bool_decide (field = "costAmount"%string) then psl_costAmount l
  else None.

(** A row on which the loop does not [continue] at its first line: it is
    there and not all of its cells are blank. *)
Definition is_processed {num} (numToString : num → jstring)
    (r : option (list (Cell num))) : bool :=
  match r with
  | Some cells => negb (all_blank numToString cells)
  | None => false
  end.

(** The object handed to [prisma.stagingRow.create] for row [i]. *)
Definition staged_record {num} (numToString : num → jstring) (batchId : nat)
    (hm : HeaderMap) (headers : list jstring) (i : nat) (cells : list (Cell num))
  : StagingRow num :=
  {| sr_batchId := batchId;
     sr_rowIndex := i;
     sr_data := build_rawObj numToString (hm_map hm) cells;
     sr_unknown :=
       let unknownObj := build_unknownObj numToString (hm_unknown hm) headers cells in
       if bool_decide (unknownObj = ∅) then None else Some unknownObj |}.

(** The store after one more staging row. *)
Definition with_staged {num} (s : Store num) (row : StagingRow num) : Store num :=
  {| importBatch := importBatch s;
     stagingRow := stagingRow s ++ [row];
     partsSalesLine := partsSalesLine s |}.

(** The staging records of the rows [rs], the first of which is row [i] of
    the sheet: one for each row that is not blank, in the order of the
    sheet. *)
Fixpoint staged_records {num} (numToString : num → jstring) (batchId : nat)
    (hm : HeaderMap) (headers : list jstring) (i : nat)
    (rs : list (option (list (Cell num)))) : list (StagingRow num) :=
  match rs with
  | [] => []
  | r :: rs' =>
      match r with
      | Some cells =>
          if decide (blank_row numToString r) then []
          else [staged_record numToString batchId hm headers i cells]
      | None => []
      end ++ staged_records numToString batchId hm headers (S i) rs'
  end.

(** A row that reaches the canonical table: the batch lacks no required
    column, the row is not blank, and what is extracted from it passes the
    schema. *)
Definition accepted_row {num} (numToString : num → jstring) (finite_only : bool)
    (hm : HeaderMap) (missing : list string) (r : option (list (Cell num)))
  : Prop :=
  match r with
  | Some cells =>
      missing = [] ∧ ¬ blank_row numToString r ∧
      is_Some (safeParse finite_only (build_rawObj numToString (hm_map hm) cells))
  | None => False
  end.

#[global] Instance accepted_row_dec {num} (numToString : num → jstring)
    finite_only hm missing r :
  Decision (accepted_row numToString finite_only hm missing r).
Proof. destruct r; unfold accepted_row; apply _. Defined.

(** A row that is staged and counted as an error. *)
Definition rejected_row {num} (numToString : num → jstring) (finite_only : bool)
    (hm : HeaderMap) (missing : list string) (r : option (list (Cell num)))
  : Prop :=
  ¬ blank_row numToString r ∧
  ¬ accepted_row numToString finite_only hm missing r.

(** The canonical table after [prisma.partsSalesLine.upsert], as a
    function of the table before: the upsert reads and writes no other
    part of the store. *)
Definition upsert_table (batch : nat)
    (table : gmap (jstring * jstring * jstring) PartsSalesLine)
    (d : CanonicalRow) : gmap (jstring * jstring * jstring) PartsSalesLine :=
  partsSalesLine
    (run (partsSalesLine_upsert (num := Empty_set) batch d)
       {| importBatch := ∅; stagingRow := []; partsSalesLine := table |}).1.

(** The parsed rows of a sheet: what the schema makes of each accepted row,
    in the order of the sheet. *)
Definition parsed_rows {num} (numToString : num → jstring) (finite_only : bool)
    (hm : HeaderMap) (missing : list string)
    (rs : list (option (list (Cell num)))) : list CanonicalRow :=
  omap (λ r,
          match r with
          | Some cells =>
              if decide (accepted_row numToString finite_only hm missing r)
              then safeParse finite_only
                     (build_rawObj numToString (hm_map hm) cells)
              else None
          | None => None
          end) rs.

(** The business key of a parsed row. *)
Definition business_key (d : CanonicalRow) : jstring * jstring * jstring :=
  (d_branchCode d, d_checkoutNo d, d_itemId d).

(** The two branches of the upsert on one line: [updated_line] is the
    [update] branch, and the [create] branch is the update of the line
    that has the key, the part number and the batch, and nothing else. *)
Definition updated_line (d : CanonicalRow) (old : PartsSalesLine)
  : PartsSalesLine :=
  {| psl_batchId := psl_batchId old;
     psl_branchCode := psl_branchCode old;
     psl_checkoutNo := psl_checkoutNo old;
     psl_itemId := psl_itemId old;
     psl_workOrderNo := set_or_keep (d_workOrderNo d) (psl_workOrderNo old);
     psl_workOrderKey := set_or_keep (workOrderKey d) (psl_workOrderKey old);
     psl_partNo := d_partNo d;
     psl_partName := set_or_keep (d_partName d) (psl_partName old);
     psl_qty := set_or_keep (d_qty d) (psl_qty old);
     psl_saleAmount := set_or_keep (d_saleAmount d) (psl_saleAmount old);
     psl_costAmount := set_or_keep (d_costAmount d) (psl_costAmount old);
     psl_advisorName := set_or_keep (d_advisorName d) (psl_advisorName old);
     psl_salesName := set_or_keep (d_salesName d) (psl_salesName old) |}.

Definition bare_line (batch : nat) (d : CanonicalRow) : PartsSalesLine :=
  {| psl_batchId := batch;
     psl_branchCode := d_branchCode d;
     psl_checkoutNo := d_checkoutNo d;
     psl_itemId := d_itemId d;
     psl_workOrderNo := None;
     psl_workOrderKey := None;
     psl_partNo := d_partNo d;
     psl_partName := None;
     psl_qty := None;
     psl_saleAmount := None;
     psl_costAmount := None;
     psl_advisorName := None;
     psl_salesName := None |}.

Local Close Scope N_scope.

(** * Properties *)

(** ** The order of the default sort *)

Lemma str_leb_cons x a y b :
  str_leb (x :: a) (y :: b) = true ↔ (x < y)%N ∨ (x = y ∧ str_leb a b = true).
Proof.
  simpl. rewrite orb_true_iff, andb_true_iff, N.ltb_lt, N.eqb_eq. done.
Qed.

#[global] Instance str_le_total : Total str_le.
Proof.
  intros a. induction a as [|x a IH]; intros [|y b]; unfold str_le in *;
    try (by left); try (by right).
  rewrite !str_leb_cons.
  destruct (N.lt_trichotomy x y) as [?|[->|?]]; [by left; left| |by right; left].
  destruct (IH b); [left|right]; by right.
Qed.

#[global] Instance str_le_trans : Transitive str_le.
Proof.
  intros a. induction a as [|x a IH]; intros [|y b] [|z c]; unfold str_le in *;
    try done.
  rewrite !str_leb_cons. intros [?|[-> Hab]] [?|[-> Hbc]].
  - left. lia.
  - by left.
  - by left.
  - right. split; [done|]. by apply (IH b c).
Qed.

#[global] Instance str_le_antisymm : AntiSymm (=) str_le.
Proof.
  intros a. induction a as [|x a IH]; intros [|y b]; unfold str_le in *;
    try done.
  rewrite !str_leb_cons. intros [?|[-> Hab]] [?|[? Hba]]; try lia.
  f_equal. by apply IH.
Qed.

Lemma sort_Permutation l l' : l ≡ₚ l' → sort l = sort l'.
Proof.
  intros Hp. unfold sort.
  apply (Sorted_unique str_le); try apply (Sorted_merge_sort str_le).
  by rewrite !merge_sort_Permutation.
Qed.

(** ** [findIndex] and the header map *)

Lemma findIndex_Some {A} (p : A → bool) l i :
  findIndex p l = Some i →
  (∃ x, l !! i = Some x ∧ p x = true) ∧
  (∀ j y, j < i → l !! j = Some y → p y = false).
Proof.
  revert i. induction l as [|x l IH]; intros i; simpl; [done|].
  destruct (p x) eqn:Hpx.
  - intros [= <-]. split; [by exists x|]. intros; lia.
  - destruct (findIndex p l) as [k|]; simpl; [|done].
    intros [= <-]. destruct (IH k eq_refl) as [Hk Hlt]. split; [done|].
    intros [|j] y Hj; simpl; [by intros [= <-]|].
    apply Hlt. lia.
Qed.

Lemma findIndex_None {A} (p : A → bool) l :
  findIndex p l = None → ∀ i x, l !! i = Some x → p x = false.
Proof.
  induction l as [|x l IH]; simpl; [done|].
  destruct (p x) eqn:Hpx; [done|].
  destruct (findIndex p l); simpl; [done|].
  intros _ [|i] y; simpl; [by intros [= <-]|]. by apply IH.
Qed.

Lemma fill_step_foldl_notin table nh (m : gmap string nat) c :
  c ∉ table.*1 → foldl (fill_step nh) m table !! c = m !! c.
Proof.
  revert m. induction table as [|[k a] table IH]; intros m Hc; simpl; [done|].
  rewrite fmap_cons, not_elem_of_cons in Hc. destruct Hc as [Hne Hc]. simpl in Hne.
  rewrite IH by done. unfold fill_step. simpl.
  destruct (findIndex _ nh); [|done]. by rewrite lookup_insert_ne.
Qed.

Lemma fill_step_foldl_lookup table nh (m : gmap string nat) c aliases :
  NoDup table.*1 → (c, aliases) ∈ table →
  foldl (fill_step nh) m table !! c =
    match findIndex (includes (normalizeHeader <$> aliases)) nh with
    | Some idx => Some idx
    | None => m !! c
    end.
Proof.
  revert m.
  induction table as [|[k a] table IH]; intros m Hnd Hin; [by apply elem_of_nil in Hin|].
  rewrite fmap_cons, NoDup_cons in Hnd. destruct Hnd as [Hk Hnd].
  apply elem_of_cons in Hin. destruct Hin as [[= <- <-]|Hin]; simpl.
  - rewrite fill_step_foldl_notin by done. unfold fill_step. simpl.
    destruct (findIndex _ nh) eqn:Hf; [by rewrite lookup_insert_eq|done].
  - rewrite IH by done. destruct (findIndex _ nh) eqn:Hf; [done|].
    unfold fill_step. simpl. destruct (findIndex (includes (normalizeHeader <$> a)) nh); [|done].
    rewrite lookup_insert_ne; [done|].
    intros <-. apply Hk. apply (list_elem_of_fmap_2 fst) in Hin. done.
Qed.

Lemma fill_map_lookup table nh c aliases :
  NoDup table.*1 → (c, aliases) ∈ table →
  fill_map table nh !! c = findIndex (includes (normalizeHeader <$> aliases)) nh.
Proof.
  intros Hnd Hin. unfold fill_map.
  rewrite (fill_step_foldl_lookup _ _ _ _ aliases) by done.
  by destruct (findIndex _ nh).
Qed.

Lemma headerAliases_NoDup : NoDup headerAliases.*1.
Proof. apply (bool_decide_unpack _). by vm_compute. Qed.

Lemma includes_true l x : includes l x = true ↔ x ∈ l.
Proof. unfold includes. apply bool_decide_eq_true. Qed.

Lemma includes_false l x : includes l x = false ↔ x ∉ l.
Proof. unfold includes. apply bool_decide_eq_false. Qed.

Lemma alias_in_all_aliases c aliases h :
  (c, aliases) ∈ headerAliases → header_matches aliases h →
  normalizeHeader h ∈ all_aliases_normalized.
Proof.
  unfold header_matches, all_aliases_normalized. intros Hin Hm.
  apply list_elem_of_fmap in Hm. destruct Hm as (a & Heq & Ha).
  rewrite Heq. apply list_elem_of_fmap_2.
  apply list_elem_of_In, in_concat. exists aliases.
  split; apply list_elem_of_In; [|done].
  by apply (list_elem_of_fmap_2 snd) in Hin.
Qed.

Lemma matched_header_not_unknown headers c aliases h :
  (c, aliases) ∈ headerAliases → header_matches aliases h →
  h ∉ hm_unknown (buildHeaderMap headers).
Proof.
  intros Hin Hm Hu. simpl in Hu. apply list_elem_of_filter in Hu.
  destruct Hu as [Hu _]. unfold is_unknown_header in Hu.
  apply negb_true_iff, includes_false in Hu.
  apply Hu. by eapply alias_in_all_aliases.
Qed.

(** C7. When several headers match aliases of one canonical field, the
    column recorded for the field is the leftmost matching one: for every
    matching column [i] the map holds a matching column [j ≤ i] before
    which no column matches.  The other matching headers leave no trace in
    the result: in particular they are not reported as unknown. *)
Theorem first_match_wins headers c aliases i h :
  (c, aliases) ∈ headerAliases →
  headers !! i = Some h →
  header_matches aliases h →
  (∃ j hj,
     hm_map (buildHeaderMap headers) !! c = Some j ∧ j ≤ i ∧
     headers !! j = Some hj ∧ header_matches aliases hj ∧
     ∀ k hk, k < j → headers !! k = Some hk → ¬ header_matches aliases hk) ∧
  h ∉ hm_unknown (buildHeaderMap headers).
Proof.
  intros Hin Hi Hm. split; [|by eapply matched_header_not_unknown].
  simpl. rewrite (fill_map_lookup _ _ _ aliases) by auto using headerAliases_NoDup.
  destruct (findIndex _ _) as [j|] eqn:Hf.
  - apply findIndex_Some in Hf. destruct Hf as [(x & Hx & Hpx) Hlt].
    rewrite list_lookup_fmap in Hx.
    destruct (headers !! j) as [hj|] eqn:Hj; simplify_eq/=.
    exists j, hj. split_and!; try done.
    + destruct (decide (j ≤ i)) as [|Hgt]; [done|].
      assert (includes (normalizeHeader <$> aliases) (normalizeHeader h) = false) as Hc.
      { apply (Hlt i); [lia|]. by rewrite list_lookup_fmap, Hi. }
      apply includes_false in Hc. by destruct Hc.
    + by apply includes_true.
    + intros k hk Hk Hhk Hmk.
      assert (includes (normalizeHeader <$> aliases) (normalizeHeader hk) = false) as Hc.
      { apply (Hlt k); [done|]. by rewrite list_lookup_fmap, Hhk. }
      apply includes_false in Hc. by destruct Hc.
  - assert (includes (normalizeHeader <$> aliases) (normalizeHeader h) = false) as Hc.
    { apply (findIndex_None _ _ Hf i). by rewrite list_lookup_fmap, Hi. }
    apply includes_false in Hc. by destruct Hc.
Qed.

(** The header row has two columns for the branch code (column 0 by the
    alias 據點 and column 3 by the alias 廠別): column 0 is kept. *)
Lemma first_match_wins_witness :
  ∃ j, hm_map (buildHeaderMap
                 [utf16 "據點"; utf16 "結帳單號"; utf16 "foo"; utf16 "廠別"])
         !! "branchCode"%string = Some j ∧ j ≤ 3.
Proof.
  destruct (first_match_wins
              [utf16 "據點"; utf16 "結帳單號"; utf16 "foo"; utf16 "廠別"]
              "branchCode"%string
              [utf16 "據點"; utf16 "廠別"; utf16 "服務廠"] 3 (utf16 "廠別"))
    as [(j & hj & Hj & Hle & _) _].
  - apply (bool_decide_unpack _). vm_compute. reflexivity.
  - reflexivity.
  - unfold header_matches. apply (bool_decide_unpack _). vm_compute. reflexivity.
  - exists j. split; [exact Hj | exact Hle].
Defined.

(** C4. The header signature does not depend on the order of the header
    columns: two header rows that are permutations of each other get the
    same signature. *)
Theorem signature_permutation_invariant (sha256_hex : jstring → jstring)
    (headers headers' : list jstring) :
  headers ≡ₚ headers' →
  headerSignature sha256_hex (hm_normHeaders (buildHeaderMap headers)) =
  headerSignature sha256_hex (hm_normHeaders (buildHeaderMap headers')).
Proof.
  intros Hp. unfold headerSignature. simpl. do 2 f_equal.
  apply sort_Permutation. by apply fmap_Permutation.
Qed.

Lemma signature_permutation_invariant_witness :
  headerSignature plain_digest
    (hm_normHeaders (buildHeaderMap [utf16 "料號"; utf16 "據點"; utf16 "數量"])) =
  headerSignature plain_digest
    (hm_normHeaders (buildHeaderMap [utf16 "數量"; utf16 "料號"; utf16 "據點"])).
Proof.
  apply (signature_permutation_invariant plain_digest).
  change ([utf16 "料號"; utf16 "據點"] ++ [utf16 "數量"] ≡ₚ
          [utf16 "數量"] ++ [utf16 "料號"; utf16 "據點"]).
  apply Permutation_app_comm.
Defined.

(** ** Blank cells and rows *)

Lemma trimStart_nil_iff s : trimStart s = [] ↔ whitespace_only s.
Proof.
  unfold whitespace_only. induction s as [|ch s IH]; simpl; [done|].
  rewrite Forall_cons. destruct (is_ws ch) eqn:Hws.
  - rewrite IH. tauto.
  - split; [done|]. by intros [? _].
Qed.

Lemma trimStart_whitespace_only s : whitespace_only (trimStart s) → trimStart s = [].
Proof.
  unfold whitespace_only. induction s as [|ch s IH]; simpl; [done|].
  destruct (is_ws ch) eqn:Hws; [done|].
  rewrite Forall_cons. intros [Hc _]. congruence.
Qed.

Lemma trim_nil_iff s : trim s = [] ↔ whitespace_only s.
Proof.
  unfold trim. split.
  - intros H. apply (f_equal reverse) in H. rewrite reverse_involutive in H.
    change (reverse []) with (@nil N) in H.
    apply trimStart_nil_iff in H. unfold whitespace_only in H.
    rewrite Forall_reverse in H. apply trimStart_whitespace_only in H.
    by apply trimStart_nil_iff.
  - intros H. apply trimStart_nil_iff in H. by rewrite H.
Qed.

Lemma is_blank_true_iff {num} (numToString : num → jstring) v :
  is_blank numToString v = true ↔ blank_cell numToString v.
Proof.
  unfold is_blank, blank_cell. rewrite bool_decide_eq_true. apply trim_nil_iff.
Qed.

Lemma is_processed_true_iff {num} (numToString : num → jstring) r :
  is_processed numToString r = true ↔ ¬ blank_row numToString r.
Proof.
  destruct r as [cells|]; simpl; [|split; [done|tauto]].
  unfold all_blank. rewrite negb_true_iff, <- not_true_iff_false.
  rewrite forallb_forall, Forall_forall.
  split; intros H1 H2; apply H1; intros v Hv.
  - by apply is_blank_true_iff, H2, list_elem_of_In.
  - by apply is_blank_true_iff, H2, list_elem_of_In.
Qed.

Lemma filter_processed {num} (numToString : num → jstring) data :
  filter (λ r, is_processed numToString r = true) data
  = non_blank_rows numToString data.
Proof. apply list_filter_iff. intros r. apply is_processed_true_iff. Qed.

(** ** The loop over the data rows *)

Section Loop.

Context {num : Type} (numToString : num → jstring) (finite_only : bool).
Context (batch : nat) (hm : HeaderMap) (headers : list jstring)
  (missing : list string).

Implicit Types (s : Store num) (c : Counters) (r : option (list (Cell num))).

Lemma fresh_id_fresh (t : gmap nat ImportBatch) : t !! fresh_id t = None.
Proof. unfold fresh_id. apply (not_elem_of_dom (D:=gset nat)), is_fresh. Qed.

Lemma run_bind {A B} (m : Prisma num A) (f : A → Prisma num B) s :
  run (m ≫= f) s =
    match run m s with
    | (s', inr x) => run (f x) s'
    | (s', inl e) => (s', inl e)
    end.
Proof. reflexivity. Qed.

Lemma process_row_skipped i r c s :
  is_processed numToString r = false →
  run (process_row numToString finite_only batch hm headers missing i r c) s
  = (s, inr c).
Proof.
  destruct r as [cells|]; simpl; [|done].
  intros Hb. apply negb_false_iff in Hb. by rewrite Hb.
Qed.

(** A processed row whose batch lacks a required column, or which fails the
    schema: staged and counted as an error. *)
Lemma process_row_rejected i cells c s :
  all_blank numToString cells = false →
  missing ≠ [] ∨
    safeParse finite_only (build_rawObj numToString (hm_map hm) cells) = None →
  run (process_row numToString finite_only batch hm headers missing i
         (Some cells) c) s
  = (with_staged s (staged_record numToString batch hm headers i cells),
     inr {| c_errorCount := S (c_errorCount c);
            c_stagedCount := S (c_stagedCount c);
            c_canonicalCount := c_canonicalCount c |}).
Proof.
  intros Hb Hrej. unfold process_row. rewrite Hb, run_bind.
  destruct missing as [|k ks]; [|done].
  destruct Hrej as [?|Hp]; [done|]. by rewrite Hp.
Qed.

(** A processed row of a batch with all required columns that passes the
    schema: staged, upserted and counted as canonical. *)
Lemma process_row_accepted i cells c s d :
  all_blank numToString cells = false →
  missing = [] →
  safeParse finite_only (build_rawObj numToString (hm_map hm) cells) = Some d →
  run (process_row numToString finite_only batch hm headers missing i
         (Some cells) c) s
  = ((run (partsSalesLine_upsert batch d)
        (with_staged s (staged_record numToString batch hm headers i cells))).1,
     inr {| c_errorCount := c_errorCount c;
            c_stagedCount := S (c_stagedCount c);
            c_canonicalCount := S (c_canonicalCount c) |}).
Proof.
  intros Hb -> Hp. unfold process_row. rewrite Hb, run_bind. simpl.
  by rewrite Hp.
Qed.

(** What one turn of the loop does to the counters and to the tables. *)
Lemma process_row_effect i r c s :
  ∃ s' c',
    run (process_row numToString finite_only batch hm headers missing i r c) s
      = (s', inr c') ∧
    importBatch s' = importBatch s ∧
    (if is_processed numToString r then
       c_stagedCount c' = S (c_stagedCount c) ∧
       length (stagingRow s') = S (length (stagingRow s)) ∧
       ((c_errorCount c' = S (c_errorCount c) ∧
         c_canonicalCount c' = c_canonicalCount c ∧
         partsSalesLine s' = partsSalesLine s) ∨
        (missing = [] ∧
         c_errorCount c' = c_errorCount c ∧
         c_canonicalCount c' = S (c_canonicalCount c)))
     else s' = s ∧ c' = c).
Proof.
  destruct (is_processed numToString r) eqn:Hpr.
  - destruct r as [cells|]; [|done]. simpl in Hpr. apply negb_true_iff in Hpr.
    destruct (decide (missing = [])) as [Hm|Hm].
    + destruct (safeParse finite_only (build_rawObj numToString (hm_map hm) cells))
        as [d|] eqn:Hp.
      * eexists _, _. split; [by apply process_row_accepted|].
        simpl. rewrite length_app. simpl.
        split_and!; try done; try lia. right. done.
      * eexists _, _. split; [apply process_row_rejected; auto|].
        simpl. rewrite length_app. simpl.
        split_and!; try done; try lia. left. done.
    + eexists _, _. split; [apply process_row_rejected; auto|].
      simpl. rewrite length_app. simpl.
      split_and!; try done; try lia. left. done.
  - eexists _, _. split; [by apply process_row_skipped|]. done.
Qed.

(** The loop never throws; it leaves the batch table alone and keeps the
    counters in step with the rows it processes. *)
Lemma process_rows_effect rs i c s :
  ∃ s' c',
    run (process_rows numToString finite_only batch hm headers missing i rs c) s
      = (s', inr c') ∧
    importBatch s' = importBatch s ∧
    c_stagedCount c' =
      c_stagedCount c + length (filter (λ r, is_processed numToString r = true) rs) ∧
    length (stagingRow s') =
      length (stagingRow s) + length (filter (λ r, is_processed numToString r = true) rs) ∧
    c_errorCount c' + c_canonicalCount c' + c_stagedCount c =
      c_stagedCount c' + c_errorCount c + c_canonicalCount c ∧
    c_errorCount c ≤ c_errorCount c' ∧
    c_canonicalCount c ≤ c_canonicalCount c' ∧
    (missing ≠ [] →
       c_canonicalCount c' = c_canonicalCount c ∧
       partsSalesLine s' = partsSalesLine s).
Proof.
  revert i c s. induction rs as [|r rs IH]; intros i c s.
  - exists s, c. simpl. split_and!; try done; lia.
  - destruct (process_row_effect i r c s) as (s1 & c1 & Hrun1 & Hb1 & Hr).
    destruct (IH (S i) c1 s1)
      as (s2 & c2 & Hrun2 & Hb2 & Hst & Hlen & Hsum & Herr & Hcan & Hmiss).
    exists s2, c2. split.
    { cbn [process_rows]. rewrite run_bind, Hrun1. exact Hrun2. }
    rewrite filter_cons.
    destruct (is_processed numToString r) eqn:Hpr.
    + rewrite decide_True by done. simpl length.
      destruct Hr as (Hs1 & Hl1 & Hcase).
      split_and!; try lia; try congruence.
      all: try (destruct Hcase as [(? & ? & ?)|(? & ? & ?)]; lia).
      intros Hne. destruct (Hmiss Hne) as [Hc2 Hp2].
        destruct Hcase as [(? & ? & ?)|(? & ? & ?)]; [|done].
        split; congruence.
    + rewrite decide_False by (by intros ?). destruct Hr as [-> ->].
      split_and!; try done; lia.
Qed.

End Loop.

(** ** The import as a whole *)

Section WholeImport.

Context {num : Type} (numToString : num → jstring).
Context (sha256_hex : jstring → jstring) (finite_only : bool).

Implicit Types (s : Store num) (rows : list (option (list (Cell num)))).

Lemma import_no_data_rows fileName rows s :
  length rows < 2 →
  run (importPartsSalesXlsx numToString sha256_hex finite_only fileName rows) s
  = (s, inl no_data_rows).
Proof.
  intros Hlen. unfold importPartsSalesXlsx.
  destruct (Nat.ltb_spec (length rows) 2); [done|lia].
Qed.

Lemma import_completes fileName row0 data s :
  data ≠ [] →
  ∃ s' res b,
    run (importPartsSalesXlsx numToString sha256_hex finite_only fileName
           (Some row0 :: data)) s = (s', inr res) ∧
    missingRequired res =
      missing_required (hm_map (buildHeaderMap (cell_string numToString <$> row0))) ∧
    unknownColumns res =
      hm_unknown (buildHeaderMap (cell_string numToString <$> row0)) ∧
    batchId res = fresh_id (importBatch s) ∧
    stagedCount res =
      length (filter (λ r, is_processed numToString r = true) data) ∧
    length (stagingRow s') = length (stagingRow s) + stagedCount res ∧
    stagedCount res = canonicalCount res + errorCount res ∧
    (missingRequired res ≠ [] →
       canonicalCount res = 0 ∧ partsSalesLine s' = partsSalesLine s) ∧
    importBatch s' !! batchId res = Some b ∧
    ib_status b = (if 0 <? errorCount res then STAGED else TRANSFORMED) ∧
    ib_errorCount b = Some (errorCount res) ∧
    ib_stagedCount b = Some (stagedCount res) ∧
    ib_canonicalCount b = Some (canonicalCount res).
Proof.
  intros Hdata. unfold importPartsSalesXlsx.
  destruct (Nat.ltb_spec (length (Some row0 :: data)) 2) as [Hlt|_].
  { destruct data; [done|]. simpl in Hlt. lia. }
  set (headers := cell_string numToString <$> row0).
  set (hm := buildHeaderMap headers).
  set (missing := missing_required (hm_map hm)).
  rewrite run_bind. cbn [run importBatch_create ib_id].
  set (id := fresh_id (importBatch s)).
  set (b0 := Build_ImportBatch id _ _ _ _ _ _ _ _ _ _).
  set (s0 := Build_Store _ _ _).
  rewrite run_bind. cbn [drop].
  destruct (process_rows_effect numToString finite_only id hm headers missing
              data 1 (Build_Counters 0 0 0) s0)
    as (s1 & c & Hrun & Hb & Hst & Hlen & Hsum & _ & _ & Hmiss).
  rewrite drop_0, Hrun, run_bind.
  assert (importBatch s1 !! id = Some b0) as Hid.
  { rewrite Hb. subst s0. cbn [importBatch]. apply lookup_insert_eq. }
  unfold importBatch_update at 1. cbn [run]. rewrite Hid. cbn [run mret Prisma_ret].
  eexists _, _, _. split; [reflexivity|].
  cbn [c_errorCount c_stagedCount c_canonicalCount] in Hst, Hlen, Hsum, Hmiss.
  subst s0. cbn [stagingRow partsSalesLine importBatch] in Hlen, Hmiss |- *.
  cbn [missingRequired unknownColumns batchId stagedCount canonicalCount errorCount].
  split_and!; [reflexivity|reflexivity|reflexivity|lia|lia|lia| |
               apply lookup_insert_eq|reflexivity..].
  intros Hne. exact (Hmiss Hne).
Qed.

(** A run that returns a result started from a sheet with a header row and
    at least one more row. *)
Lemma import_result_inv fileName rows s s' res :
  run (importPartsSalesXlsx numToString sha256_hex finite_only fileName rows) s
    = (s', inr res) →
  ∃ row0 data, rows = Some row0 :: data ∧ data ≠ [].
Proof.
  unfold importPartsSalesXlsx.
  destruct (Nat.ltb_spec (length rows) 2) as [|Hlen]; [done|].
  destruct rows as [|[row0|] data]; [done| |done].
  intros _. exists row0, data. split; [done|]. intros ->. simpl in Hlen. lia.
Qed.

End WholeImport.

(** ** Properties of a batch *)

Section Batch.

Context {num : Type} (numToString : num → jstring).
Context (sha256_hex : jstring → jstring) (finite_only : bool).

Implicit Types (s : Store num) (rows data : list (option (list (Cell num)))).
Implicit Types (r : option (list (Cell num))) (c : Counters).

(** C1. When one of the four required canonical fields has no column in
    the header row, the import of a sheet with data rows returns with
    canonicalCount 0 and errorCount equal to stagedCount; every row that is
    not blank is staged and counted, and the canonical table is left as it
    was. *)
Theorem missing_required_column_stages_only fileName row0 data s key :
  data ≠ [] →
  key ∈ requiredKeys →
  hm_map (buildHeaderMap (cell_string numToString <$> row0)) !! key = None →
  ∃ s' res,
    run (importPartsSalesXlsx numToString sha256_hex finite_only fileName
           (Some row0 :: data)) s = (s', inr res) ∧
    canonicalCount res = 0 ∧
    errorCount res = stagedCount res ∧
    stagedCount res = length (non_blank_rows numToString data) ∧
    length (stagingRow s') = length (stagingRow s) + stagedCount res ∧
    partsSalesLine s' = partsSalesLine s.
Proof.
  intros Hdata Hkey Hnone.
  destruct (import_completes numToString sha256_hex finite_only fileName
              row0 data s Hdata)
    as (s' & res & b & Hrun & Hmr & _ & _ & Hst & Hlen & Hsum & Hmiss & _).
  exists s', res. rewrite filter_processed in Hst.
  destruct Hmiss as [Hcan Hpsl].
  { rewrite Hmr. intros Hnil.
    assert (key ∈ missing_required
              (hm_map (buildHeaderMap (cell_string numToString <$> row0)))) as Hin.
    { unfold missing_required. apply list_elem_of_filter. done. }
    rewrite Hnil in Hin. by apply elem_of_nil in Hin. }
  split_and!; try done; lia.
Qed.

(** C3. A sheet of fewer than two rows makes the import throw the "no data
    rows" error and leaves every table as it was.  The loop over the rows
    never throws, whatever the rows are, and the import of a sheet with a
    header row and at least one more row returns a result. *)
Theorem only_short_sheets_abort fileName rows s :
  (length rows < 2 →
   run (importPartsSalesXlsx numToString sha256_hex finite_only fileName rows) s
   = (s, inl no_data_rows)) ∧
  (2 ≤ length rows →
   (∀ batch hm headers missing i c s0, ∃ s1 c1,
      run (process_rows numToString finite_only batch hm headers missing i
             (drop 1 rows) c) s0 = (s1, inr c1)) ∧
   (∀ row0, rows !! 0 = Some (Some row0) →
      ∃ s' res,
        run (importPartsSalesXlsx numToString sha256_hex finite_only fileName
               rows) s = (s', inr res))).
Proof.
  split; [apply import_no_data_rows|]. intros Hlen. split.
  - intros batch hm headers missing i c s0.
    destruct (process_rows_effect numToString finite_only batch hm headers
                missing (drop 1 rows) i c s0) as (s1 & c1 & Hrun & _).
    by exists s1, c1.
  - intros row0 Hrow0. destruct rows as [|r0 data]; [done|].
    simpl in Hrow0. injection Hrow0 as ->.
    destruct (import_completes numToString sha256_hex finite_only fileName
                row0 data s) as (s' & res & b & Hrun & _).
    { intros ->. simpl in Hlen. lia. }
    by exists s', res.
Qed.

(** C6. After an import that returned a result, the batch it names has
    status TRANSFORMED exactly when the error counter is zero and STAGED
    otherwise, and carries the three returned counters. *)
Theorem final_status_and_counters fileName rows s s' res :
  run (importPartsSalesXlsx numToString sha256_hex finite_only fileName rows) s
    = (s', inr res) →
  ∃ b,
    importBatch s' !! batchId res = Some b ∧
    (ib_status b = TRANSFORMED ↔ errorCount res = 0) ∧
    (ib_status b = STAGED ↔ errorCount res ≠ 0) ∧
    ib_stagedCount b = Some (stagedCount res) ∧
    ib_canonicalCount b = Some (canonicalCount res) ∧
    ib_errorCount b = Some (errorCount res).
Proof.
  intros Hrun.
  destruct (import_result_inv _ _ _ _ _ _ _ _ Hrun) as (row0 & data & -> & Hdata).
  destruct (import_completes numToString sha256_hex finite_only fileName
              row0 data s Hdata)
    as (s2 & res2 & b & Hrun2 & _ & _ & _ & _ & _ & _ & _ & Hb & Hstatus & He & Hs & Hc).
  rewrite Hrun in Hrun2. injection Hrun2 as <- <-.
  exists b. split_and!; try done.
  - rewrite Hstatus. destruct (Nat.ltb_spec 0 (errorCount res)); split; try done; lia.
  - rewrite Hstatus. destruct (Nat.ltb_spec 0 (errorCount res)); split; try done; lia.
Qed.

(** C8. A blank row (absent, or with blank cells only) goes through the
    loop without a trace: the store and the three counters are what they
    were, and the loop goes on with the next row from there. *)
Theorem blank_row_skipped batch hm headers missing i r rs c s :
  blank_row numToString r →
  run (process_row numToString finite_only batch hm headers missing i r c) s
    = (s, inr c) ∧
  run (process_rows numToString finite_only batch hm headers missing i
         (r :: rs) c) s
    = run (process_rows numToString finite_only batch hm headers missing (S i)
             rs c) s.
Proof.
  intros Hblank.
  assert (is_processed numToString r = false) as Hpr.
  { apply not_true_iff_false. rewrite is_processed_true_iff. tauto. }
  pose proof (process_row_skipped numToString finite_only batch hm headers
                missing i r c s Hpr) as Hrun.
  split; [done|]. cbn [process_rows]. by rewrite run_bind, Hrun.
Qed.

(** C9. The counters returned by an import satisfy
    stagedCount = canonicalCount + errorCount; in the loop, a row that is
    staged adds one to the staged counter and one to exactly one of the two
    others, and a row that is not staged changes no counter. *)
Theorem staged_is_canonical_plus_error fileName rows s s' res :
  run (importPartsSalesXlsx numToString sha256_hex finite_only fileName rows) s
    = (s', inr res) →
  stagedCount res = canonicalCount res + errorCount res ∧
  ∀ batch hm headers missing i r c s0, ∃ s1 c1,
    run (process_row numToString finite_only batch hm headers missing i r c) s0
      = (s1, inr c1) ∧
    ((c_stagedCount c1 = S (c_stagedCount c) ∧
      c_errorCount c1 = S (c_errorCount c) ∧
      c_canonicalCount c1 = c_canonicalCount c) ∨
     (c_stagedCount c1 = S (c_stagedCount c) ∧
      c_errorCount c1 = c_errorCount c ∧
      c_canonicalCount c1 = S (c_canonicalCount c)) ∨
     (c1 = c ∧ stagingRow s1 = stagingRow s0)).
Proof.
  intros Hrun.
  destruct (import_result_inv _ _ _ _ _ _ _ _ Hrun) as (row0 & data & -> & Hdata).
  destruct (import_completes numToString sha256_hex finite_only fileName
              row0 data s Hdata)
    as (s2 & res2 & b & Hrun2 & _ & _ & _ & _ & _ & Hsum & _).
  rewrite Hrun in Hrun2. injection Hrun2 as <- <-.
  split; [done|]. intros batch hm headers missing i r c s0.
  destruct (process_row_effect numToString finite_only batch hm headers
              missing i r c s0) as (s1 & c1 & Hrun1 & _ & Hcase).
  exists s1, c1. split; [done|].
  destruct (is_processed numToString r).
  - destruct Hcase as (? & _ & [(? & ? & _)|(_ & ? & ?)]); [left|right; left]; done.
  - destruct Hcase as [-> ->]. right; right. done.
Qed.

End Batch.

(** ** Validation of one row *)

Section Validation.

Context {num : Type} (numToString : num → jstring) (finite_only : bool).

Implicit Types (s : Store num) (c : Counters) (raw : gmap string jstring).

Lemma safeParse_Some raw d :
  safeParse finite_only raw = Some d →
  z_string_min1 (raw !! "branchCode"%string) = Some (d_branchCode d) ∧
  z_string_min1 (raw !! "checkoutNo"%string) = Some (d_checkoutNo d) ∧
  z_string_min1 (raw !! "itemId"%string) = Some (d_itemId d) ∧
  z_string_min1 (raw !! "partNo"%string) = Some (d_partNo d) ∧
  z_coerce_number_optional finite_only (raw !! "qty"%string) = Some (d_qty d) ∧
  z_coerce_number_optional finite_only (raw !! "saleAmount"%string)
    = Some (d_saleAmount d) ∧
  z_coerce_number_optional finite_only (raw !! "costAmount"%string)
    = Some (d_costAmount d).
Proof.
  unfold safeParse, z_string_optional.
  destruct (z_string_min1 (raw !! "branchCode"%string)); [|done].
  destruct (z_string_min1 (raw !! "checkoutNo"%string)); [|done].
  destruct (z_string_min1 (raw !! "itemId"%string)); [|done].
  destruct (z_string_min1 (raw !! "partNo"%string)); [|done].
  cbn [mbind option_bind].
  destruct (z_coerce_number_optional _ (raw !! "qty"%string)); [|done].
  destruct (z_coerce_number_optional _ (raw !! "saleAmount"%string)); [|done].
  destruct (z_coerce_number_optional _ (raw !! "costAmount"%string)); [|done].
  cbn [mbind option_bind]. by intros [= <-].
Qed.

Lemma safeParse_is_Some raw :
  is_Some (safeParse finite_only raw) ↔
  is_Some (z_string_min1 (raw !! "branchCode"%string)) ∧
  is_Some (z_string_min1 (raw !! "checkoutNo"%string)) ∧
  is_Some (z_string_min1 (raw !! "itemId"%string)) ∧
  is_Some (z_string_min1 (raw !! "partNo"%string)) ∧
  is_Some (z_coerce_number_optional finite_only (raw !! "qty"%string)) ∧
  is_Some (z_coerce_number_optional finite_only (raw !! "saleAmount"%string)) ∧
  is_Some (z_coerce_number_optional finite_only (raw !! "costAmount"%string)).
Proof.
  split.
  - intros [d Hd]. apply safeParse_Some in Hd.
    destruct Hd as (-> & -> & -> & -> & -> & -> & ->). by split_and!.
  - intros ([? H1] & [? H2] & [? H3] & [? H4] & [? H5] & [? H6] & [? H7]).
    unfold safeParse, z_string_optional. rewrite H1, H2, H3, H4.
    cbn [mbind option_bind]. rewrite H5, H6, H7. cbn [mbind option_bind]. done.
Qed.

Lemma numeric_field_cases (field : string) :
  field ∈ numericKeys →
  field = "qty"%string ∨ field = "saleAmount"%string ∨ field = "costAmount"%string.
Proof. unfold numericKeys. rewrite !elem_of_cons, elem_of_nil. tauto. Qed.

Lemma safeParse_number raw d field :
  field ∈ numericKeys →
  safeParse finite_only raw = Some d →
  z_coerce_number_optional finite_only (raw !! field) = Some (parsed_number field d).
Proof.
  intros Hf Hd. apply safeParse_Some in Hd.
  destruct Hd as (_ & _ & _ & _ & Hq & Hs & Hc).
  by destruct (numeric_field_cases _ Hf) as [->|[->| ->]].
Qed.

Lemma safeParse_NaN raw field text :
  field ∈ numericKeys →
  raw !! field = Some text →
  Number text = NaN →
  safeParse finite_only raw = None.
Proof.
  intros Hf Hraw Hnan. apply eq_None_not_Some. intros [d Hd].
  apply (safeParse_number _ _ _ Hf) in Hd.
  rewrite Hraw in Hd. simpl in Hd. by rewrite Hnan in Hd.
Qed.

(** C5. A row that is not blank and whose extracted quantity, sale amount
    or cost amount is a text that [Number] does not read (such a text is
    not empty) is staged, counted as an error and as staged, and kept out
    of the canonical table, whatever its other fields hold. *)
Theorem non_numeric_value_rejects_row batch hm headers missing i cells c s
    field text :
  ¬ blank_row numToString (Some cells) →
  field ∈ numericKeys →
  build_rawObj numToString (hm_map hm) cells !! field = Some text →
  Number text = NaN →
  text ≠ [] ∧
  ∃ s',
    run (process_row numToString finite_only batch hm headers missing i
           (Some cells) c) s
    = (s', inr {| c_errorCount := S (c_errorCount c);
                  c_stagedCount := S (c_stagedCount c);
                  c_canonicalCount := c_canonicalCount c |}) ∧
    stagingRow s' =
      stagingRow s ++ [staged_record numToString batch hm headers i cells] ∧
    partsSalesLine s' = partsSalesLine s ∧
    importBatch s' = importBatch s.
Proof.
  intros Hnb Hf Hraw Hnan. split; [by intros ->|].
  apply is_processed_true_iff in Hnb. simpl in Hnb. apply negb_true_iff in Hnb.
  eexists. split.
  - apply process_row_rejected; [done|]. right. by eapply safeParse_NaN.
  - done.
Qed.

Lemma blank_cell_extracted (map : gmap string nat) cells field idx :
  map !! field = Some idx →
  blank_cell numToString (cell_at cells idx) →
  build_rawObj numToString map cells !! field = Some [].
Proof.
  intros Hidx Hblank. unfold build_rawObj. rewrite lookup_fmap, Hidx. simpl.
  f_equal. by apply trim_nil_iff.
Qed.

Lemma upsert_line_number batch d s field n :
  field ∈ numericKeys →
  parsed_number field d = Some n →
  ∃ line,
    partsSalesLine (run (partsSalesLine_upsert batch d) s).1
      !! (d_branchCode d, d_checkoutNo d, d_itemId d) = Some line ∧
    line_number field line = Some n.
Proof.
  intros Hf Hn. eexists. split; [apply lookup_insert_eq|].
  unfold parsed_number in Hn. unfold line_number.
  destruct (numeric_field_cases _ Hf) as [->|[->| ->]];
    repeat case_bool_decide; try done;
    destruct (partsSalesLine s !! _); simpl; by rewrite Hn.
Qed.

(** C10. When the column of an optional numeric field holds a blank cell,
    the extracted text is the empty string; it does not decide the outcome
    of the validation (the row passes exactly when it passes without that
    property); and when the row passes, the parsed field is the number 0
    and, for a row that is not blank in a batch with all required columns,
    the canonical line written for the row holds 0 in that field. *)
Theorem blank_numeric_cell_is_zero batch hm headers i cells c s field idx :
  field ∈ numericKeys →
  hm_map hm !! field = Some idx →
  blank_cell numToString (cell_at cells idx) →
  build_rawObj numToString (hm_map hm) cells !! field = Some [] ∧
  (is_Some (safeParse finite_only (build_rawObj numToString (hm_map hm) cells)) ↔
   is_Some (safeParse finite_only
              (delete field (build_rawObj numToString (hm_map hm) cells)))) ∧
  ∀ d,
    safeParse finite_only (build_rawObj numToString (hm_map hm) cells) = Some d →
    parsed_number field d = Some (Decimal false 0 0) ∧
    (¬ blank_row numToString (Some cells) →
     ∃ s' line,
       run (process_row numToString finite_only batch hm headers [] i
              (Some cells) c) s
       = (s', inr {| c_errorCount := c_errorCount c;
                     c_stagedCount := S (c_stagedCount c);
                     c_canonicalCount := S (c_canonicalCount c) |}) ∧
       partsSalesLine s' !! (d_branchCode d, d_checkoutNo d, d_itemId d)
         = Some line ∧
       line_number field line = Some (Decimal false 0 0)).
Proof.
  intros Hf Hidx Hblank.
  pose proof (blank_cell_extracted _ _ _ _ Hidx Hblank) as Hraw.
  set (raw := build_rawObj numToString (hm_map hm) cells) in *.
  split_and!; [done| |].
  - rewrite !safeParse_is_Some.
    destruct (numeric_field_cases _ Hf) as [->|[->| ->]];
      rewrite ?lookup_delete_eq, ?lookup_delete_ne by done;
      rewrite Hraw; cbn [z_coerce_number_optional];
      change (Number []) with (Decimal false 0 0); cbn [z_number fmap option_fmap option_map];
      intuition eauto.
  - intros d Hd.
    assert (parsed_number field d = Some (Decimal false 0 0)) as Hzero.
    { pose proof (safeParse_number _ _ _ Hf Hd) as Hn. rewrite Hraw in Hn.
      by injection Hn as <-. }
    split; [done|]. intros Hnb.
    apply is_processed_true_iff in Hnb. simpl in Hnb. apply negb_true_iff in Hnb.
    destruct (upsert_line_number batch d
                (with_staged s (staged_record numToString batch hm headers i cells))
                field _ Hf Hzero) as (line & Hline & Hnum).
    eexists _, line. split; [by apply process_row_accepted|]. done.
Qed.

End Validation.

(** ** Unknown columns *)

Section Unknown.

Context {num : Type} (numToString : num → jstring).

Implicit Types (o : gmap jstring (Cell num)) (r : list (Cell num)).

Lemma obj_set_lookup_ne o k v h : h ≠ k → obj_set o k v !! h = o !! h.
Proof.
  intros Hne. unfold obj_set. case_bool_decide; [done|].
  by rewrite lookup_insert_ne.
Qed.

Lemma obj_set_lookup_eq o k v :
  k ≠ utf16 "__proto__" → obj_set o k v !! k = Some v.
Proof.
  intros Hne. unfold obj_set. rewrite bool_decide_eq_false_2 by done.
  apply lookup_insert_eq.
Qed.

(** Columns whose cell is blank, or whose header is another text, leave
    the entry of a header as it is. *)
Lemma collect_unknown_untouched unknown r headers idx o h :
  (∀ j, headers !! j = Some h → blank_cell numToString (cell_at r (idx + j))) →
  collect_unknown numToString unknown r headers idx o !! h = o !! h.
Proof.
  revert idx o. induction headers as [|h0 headers IH]; intros idx o Hblank;
    simpl; [done|].
  rewrite IH.
  - destruct (includes unknown h0); [|done].
    destruct (is_blank numToString (cell_at r idx)) eqn:Hb; [done|].
    apply obj_set_lookup_ne. intros ->.
    apply not_true_iff_false in Hb. apply Hb, is_blank_true_iff.
    specialize (Hblank 0 eq_refl). by rewrite Nat.add_0_r in Hblank.
  - intros j Hj. specialize (Hblank (S j) Hj).
    by replace (idx + S j) with (S idx + j) in Hblank by lia.
Qed.

Lemma collect_unknown_retained unknown r headers idx o i h :
  headers !! i = Some h →
  h ∈ unknown →
  h ≠ utf16 "__proto__" →
  ¬ blank_cell numToString (cell_at r (idx + i)) →
  (∀ j, i < j → headers !! j = Some h →
        blank_cell numToString (cell_at r (idx + j))) →
  collect_unknown numToString unknown r headers idx o !! h
  = Some (cell_at r (idx + i)).
Proof.
  revert idx o i. induction headers as [|h0 headers IH];
    intros idx o i Hi Hin Hproto Hnb Hlater; [done|].
  destruct i as [|i]; simpl in Hi |- *.
  - injection Hi as ->. rewrite Nat.add_0_r in *.
    rewrite collect_unknown_untouched.
    + apply includes_true in Hin. rewrite Hin.
      destruct (is_blank numToString (cell_at r idx)) eqn:Hb.
      * by apply is_blank_true_iff in Hb.
      * by apply obj_set_lookup_eq.
    + intros j Hj. replace (S idx + j) with (idx + S j) by lia.
      apply Hlater; [lia|done].
  - replace (idx + S i) with (S idx + i) in * by lia.
    apply IH; try done.
    intros j Hj Hh. replace (S idx + j) with (idx + S j) by lia.
    apply Hlater; [lia|done].
Qed.

(** X10. What does hold for unknown columns: a non-blank cell is kept as
    it is under its header text when no later non-blank cell of the row
    stands under the same header text (and the header is not [__proto__]);
    among the cells under one header text the last non-blank one is kept. *)
Lemma unknown_cell_retained headers r i h :
  headers !! i = Some h →
  is_unknown_header h = true →
  h ≠ utf16 "__proto__" →
  ¬ blank_cell numToString (cell_at r i) →
  (∀ j, i < j → headers !! j = Some h → blank_cell numToString (cell_at r j)) →
  build_unknownObj numToString (hm_unknown (buildHeaderMap headers)) headers r
    !! h = Some (cell_at r i).
Proof.
  intros Hi Hu Hproto Hnb Hlater. unfold build_unknownObj.
  apply (collect_unknown_retained _ r headers 0 ∅ i h); try done.
  simpl. apply list_elem_of_filter. split; [done|].
  by apply list_elem_of_lookup_2 in Hi.
Qed.

End Unknown.

(** ** The properties on sample sheets *)

(** The header row lacks the column of the item id. *)
Lemma missing_required_column_stages_only_witness :
  ∃ s' res,
    run_import [Some headers_without_itemId; Some row_without_itemId]
      = (s', inr res) ∧
    canonicalCount res = 0 ∧
    errorCount res = stagedCount res ∧
    stagedCount res = length (non_blank_rows decimal [Some row_without_itemId]) ∧
    length (stagingRow s') = length (stagingRow empty_store) + stagedCount res ∧
    partsSalesLine s' = partsSalesLine empty_store.
Proof.
  apply (missing_required_column_stages_only decimal plain_digest false None
           headers_without_itemId [Some row_without_itemId] empty_store
           "itemId"%string).
  - discriminate.
  - apply (bool_decide_unpack _). vm_compute. reflexivity.
  - vm_compute. reflexivity.
Defined.

Lemma only_short_sheets_abort_witness :
  run_import [Some sample_headers] = (empty_store, inl no_data_rows) ∧
  ∃ s' res, run_import sample_sheet = (s', inr res).
Proof.
  split.
  - apply (proj1 (only_short_sheets_abort decimal plain_digest false None
                    [Some sample_headers] empty_store)).
    simpl. lia.
  - apply (proj2 (only_short_sheets_abort decimal plain_digest false None
                    sample_sheet empty_store)) with (row0 := sample_headers).
    + simpl. lia.
    + reflexivity.
Defined.

Lemma final_status_and_counters_witness :
  ∃ b,
    importBatch (run_import sample_sheet).1 !! batchId sample_result = Some b ∧
    (ib_status b = TRANSFORMED ↔ errorCount sample_result = 0) ∧
    (ib_status b = STAGED ↔ errorCount sample_result ≠ 0) ∧
    ib_stagedCount b = Some (stagedCount sample_result) ∧
    ib_canonicalCount b = Some (canonicalCount sample_result) ∧
    ib_errorCount b = Some (errorCount sample_result).
Proof.
  apply (final_status_and_counters decimal plain_digest false None sample_sheet
           empty_store (run_import sample_sheet).1 sample_result).
  vm_compute. reflexivity.
Defined.

Lemma blank_row_skipped_witness :
  run (process_row decimal false 0 sample_map
         (cell_string decimal <$> sample_headers) [] 1 (Some sample_blank_row)
         (Build_Counters 0 0 0)) empty_store
    = (empty_store, inr (Build_Counters 0 0 0)) ∧
  run (process_rows decimal false 0 sample_map
         (cell_string decimal <$> sample_headers) [] 1
         [Some sample_blank_row; Some sample_row] (Build_Counters 0 0 0))
      empty_store
    = run (process_rows decimal false 0 sample_map
             (cell_string decimal <$> sample_headers) [] 2
             [Some sample_row] (Build_Counters 0 0 0)) empty_store.
Proof.
  apply (blank_row_skipped decimal false 0 sample_map
           (cell_string decimal <$> sample_headers) [] 1
           (Some sample_blank_row) [Some sample_row] (Build_Counters 0 0 0)
           empty_store).
  apply (bool_decide_unpack _). vm_compute. reflexivity.
Defined.

Lemma staged_is_canonical_plus_error_witness :
  stagedCount sample_result
    = canonicalCount sample_result + errorCount sample_result.
Proof.
  apply (staged_is_canonical_plus_error decimal plain_digest false None
           sample_sheet empty_store (run_import sample_sheet).1 sample_result).
  vm_compute. reflexivity.
Defined.

(** The quantity of the row is the text abc. *)
Lemma non_numeric_value_rejects_row_witness :
  utf16 "abc" ≠ [] ∧
  ∃ s',
    run (process_row decimal false 0 sample_map
           (cell_string decimal <$> sample_headers) [] 1 (Some row_bad_qty)
           (Build_Counters 0 0 0)) empty_store
    = (s', inr (Build_Counters 1 1 0)) ∧
    stagingRow s' =
      stagingRow empty_store ++
        [staged_record decimal 0 sample_map
           (cell_string decimal <$> sample_headers) 1 row_bad_qty] ∧
    partsSalesLine s' = partsSalesLine empty_store ∧
    importBatch s' = importBatch empty_store.
Proof.
  apply (non_numeric_value_rejects_row decimal false 0 sample_map
           (cell_string decimal <$> sample_headers) [] 1 row_bad_qty
           (Build_Counters 0 0 0) empty_store "qty"%string (utf16 "abc")).
  - apply (bool_decide_unpack _). vm_compute. reflexivity.
  - apply (bool_decide_unpack _). vm_compute. reflexivity.
  - vm_compute. reflexivity.
  - vm_compute. reflexivity.
Defined.

(** The quantity of the row is a cell of two spaces. *)
Lemma blank_numeric_cell_is_zero_witness :
  build_rawObj decimal (hm_map sample_map) row_blank_qty !! "qty"%string
    = Some [] ∧
  is_Some (safeParse false (build_rawObj decimal (hm_map sample_map) row_blank_qty)).
Proof.
  destruct (blank_numeric_cell_is_zero decimal false 0 sample_map
              (cell_string decimal <$> sample_headers) 1 row_blank_qty
              (Build_Counters 0 0 0) empty_store "qty"%string 4)
    as (Hraw & Hiff & _).
  - apply (bool_decide_unpack _). vm_compute. reflexivity.
  - vm_compute. reflexivity.
  - apply (bool_decide_unpack _). vm_compute. reflexivity.
  - split; [exact Hraw|]. apply Hiff. vm_compute. eexists. reflexivity.
Defined.

(** C2, on a sheet with two unknown columns of one and the same header
    text (備註): both headers are unknown and both cells of the data row are
    non-blank, yet the staging row keeps a single entry under that header,
    the cell of the later column (y); the cell of the earlier column (x) is
    in neither mapping of the staging row. *)
Theorem duplicate_unknown_header_keeps_last_cell :
  hm_unknown (buildHeaderMap (cell_string decimal <$> remark_headers))
    = [utf16 "備註"; utf16 "備註"] ∧
  ¬ blank_cell decimal (cell_at remark_row 1) ∧
  ¬ blank_cell decimal (cell_at remark_row 2) ∧
  stagingRow (run_import [Some remark_headers; Some remark_row]).1
    = [ {| sr_batchId := 0;
           sr_rowIndex := 1;
           sr_data := {[ "branchCode"%string := utf16 "A01" ]};
           sr_unknown := Some {[ utf16 "備註" := str "y" ]} |} ].
Proof.
  split_and!.
  - vm_compute. reflexivity.
  - apply (bool_decide_unpack _). vm_compute. reflexivity.
  - apply (bool_decide_unpack _). vm_compute. reflexivity.
  - vm_compute. reflexivity.
Qed.

(** ** The scenarios of the specification *)

Example scenario_clean_sheet : (run_import sample_sheet).2 = inr sample_result.
Proof. vm_compute. reflexivity. Qed.

Example scenario_without_itemId :
  (run_import [Some headers_without_itemId; Some row_without_itemId]).2
  = inr {| batchId := 0; stagedCount := 1; canonicalCount := 0; errorCount := 1;
           missingRequired := ["itemId"%string]; unknownColumns := [] |}.
Proof. vm_compute. reflexivity. Qed.

Example scenario_header_only :
  run_import [Some sample_headers] = (empty_store, inl no_data_rows).
Proof. vm_compute. reflexivity. Qed.

Example scenario_bad_quantity :
  (run_import [Some sample_headers; Some row_bad_qty]).2
  = inr {| batchId := 0; stagedCount := 1; canonicalCount := 0; errorCount := 1;
           missingRequired := []; unknownColumns := [] |}.
Proof. vm_compute. reflexivity. Qed.

Example scenario_blank_quantity :
  psl_qty <$> (partsSalesLine (run_import [Some sample_headers; Some row_blank_qty]).1
                 !! (utf16 "A01", utf16 "C100", utf16 "1"))
  = Some (Some (Decimal false 0 0)).
Proof. vm_compute. reflexivity. Qed.

Example scenario_blank_row_between :
  (run_import [Some sample_headers; Some sample_blank_row; None; Some sample_row]).2
  = inr sample_result.
Proof. vm_compute. reflexivity. Qed.

(** * Further properties of the importer *)

(** ** Normalization of headers *)

Lemma trimStart_head s ch t : trimStart s = ch :: t → is_ws ch = false.
Proof.
  induction s as [|c s IH]; simpl; [done|].
  destruct (is_ws c) eqn:Hws; [done|]. by intros [= <- _].
Qed.

Lemma trimStart_decompose s :
  ∃ p, s = p ++ trimStart s ∧ whitespace_only p.
Proof.
  induction s as [|c s IH]; simpl.
  - exists []. split; [done|]. constructor.
  - destruct (is_ws c) eqn:Hws.
    + destruct IH as (p & Hs & Hp). exists (c :: p). split.
      * simpl. by f_equal.
      * by constructor.
    + exists []. split; [done|]. constructor.
Qed.

Lemma trimStart_fixed s :
  (∀ ch, head s = Some ch → is_ws ch = false) → trimStart s = s.
Proof.
  destruct s as [|c s]; simpl; [done|]. intros H. by rewrite (H c eq_refl).
Qed.

Lemma remove_ws_trimStart s : remove_ws (trimStart s) = remove_ws s.
Proof.
  unfold remove_ws. induction s as [|c s IH]; simpl; [done|].
  destruct (is_ws c) eqn:Hws; [|done].
  rewrite IH, filter_cons_False; [done|]. by rewrite Hws.
Qed.

Lemma remove_ws_trim s : remove_ws (trim s) = remove_ws s.
Proof.
  unfold trim, remove_ws. rewrite filter_reverse.
  fold (remove_ws (trimStart (reverse (trimStart s)))).
  rewrite remove_ws_trimStart. unfold remove_ws.
  rewrite filter_reverse, reverse_involutive.
  apply remove_ws_trimStart.
Qed.

Lemma normalizeHeader_remove_ws s :
  normalizeHeader s = replace_fullwidth_colon (remove_ws s).
Proof. unfold normalizeHeader. by rewrite remove_ws_trim. Qed.

Lemma remove_ws_whitespace_only w : whitespace_only w → remove_ws w = [].
Proof.
  unfold whitespace_only, remove_ws. induction 1 as [|c w Hc _ IH]; [done|].
  rewrite filter_cons_False; [done|]. by rewrite Hc.
Qed.

Lemma normalizeHeader_clean s :
  Forall (λ ch, is_ws ch = false ∧ ch ≠ 65306%N) (normalizeHeader s).
Proof.
  rewrite normalizeHeader_remove_ws. unfold replace_fullwidth_colon, remove_ws.
  apply Forall_fmap, Forall_forall. intros ch Hch.
  apply list_elem_of_filter in Hch. destruct Hch as [Hws _]. simpl.
  destruct (N.eqb_spec ch 65306%N) as [->|Hne]; [by split|by split].
Qed.

(** X1. Normalizing twice is normalizing once, and a normalized header
    holds neither a white-space code unit nor the full-width colon. *)
Theorem normalizeHeader_idempotent s :
  normalizeHeader (normalizeHeader s) = normalizeHeader s ∧
  Forall (λ ch, is_ws ch = false ∧ ch ≠ 65306%N) (normalizeHeader s).
Proof.
  split; [|apply normalizeHeader_clean].
  pose proof (normalizeHeader_clean s) as Hclean.
  rewrite (normalizeHeader_remove_ws (normalizeHeader s)).
  induction Hclean as [|ch t [Hws Hne] _ IH]; [done|].
  unfold remove_ws. rewrite filter_cons_True by done.
  fold (remove_ws t). unfold replace_fullwidth_colon in *. rewrite fmap_cons.
  f_equal; [|done]. by destruct (N.eqb_spec ch 65306%N).
Qed.

(** X2. White space anywhere in a header is ignored: a run of white space
    put between two parts of a header (or before or after it) does not
    change its normalized form. *)
Theorem normalizeHeader_ignores_white_space a w b :
  whitespace_only w →
  normalizeHeader (a ++ w ++ b) = normalizeHeader (a ++ b).
Proof.
  intros Hw. rewrite !normalizeHeader_remove_ws. f_equal.
  unfold remove_ws. rewrite !filter_app.
  change (filter (λ c : N, is_ws c = false) w) with (remove_ws w).
  rewrite (remove_ws_whitespace_only w Hw). done.
Qed.

Lemma normalizeHeader_ignores_white_space_witness :
  normalizeHeader (utf16 "結帳" ++ [32%N; 12288%N] ++ utf16 "單號")
  = normalizeHeader (utf16 "結帳" ++ utf16 "單號").
Proof.
  apply (normalizeHeader_ignores_white_space (utf16 "結帳") [32%N; 12288%N]
           (utf16 "單號")).
  apply (bool_decide_unpack _). vm_compute. reflexivity.
Defined.

(** ** The header map, read back *)

Lemma all_aliases_matches h :
  normalizeHeader h ∈ all_aliases_normalized →
  ∃ c aliases, (c, aliases) ∈ headerAliases ∧ header_matches aliases h.
Proof.
  unfold all_aliases_normalized, header_matches. intros Hin.
  apply list_elem_of_fmap in Hin. destruct Hin as (a & Heq & Ha).
  apply list_elem_of_In, in_concat in Ha. destruct Ha as (aliases & Hal & Hin).
  apply list_elem_of_In, list_elem_of_fmap in Hal.
  destruct Hal as ([c al] & -> & Hentry). simpl in Hin.
  exists c, al. split; [done|].
  rewrite Heq. by apply list_elem_of_fmap_2, list_elem_of_In.
Qed.

(** X3. The unknown columns are exactly the headers of the sheet that
    match no alias of any canonical field, in the order of the sheet. *)
Theorem unknown_headers_match_nothing headers h :
  (h ∈ hm_unknown (buildHeaderMap headers) ↔
   h ∈ headers ∧
   ∀ c aliases, (c, aliases) ∈ headerAliases → ¬ header_matches aliases h) ∧
  hm_unknown (buildHeaderMap headers) `sublist_of` headers.
Proof.
  split; [|apply sublist_filter].
  simpl. rewrite list_elem_of_filter. unfold is_unknown_header.
  rewrite negb_true_iff, includes_false. split.
  - intros [Hno Hin]. split; [done|]. intros c aliases Hentry Hm.
    apply Hno. by eapply alias_in_all_aliases.
  - intros [Hin Hno]. split; [|done]. intros Hall.
    destruct (all_aliases_matches h Hall) as (c & aliases & Hentry & Hm).
    by apply (Hno c aliases).
Qed.

Lemma table_key_entry (table : list (string * list jstring)) c :
  c ∈ table.*1 → ∃ aliases, (c, aliases) ∈ table.
Proof.
  intros Hin. apply list_elem_of_fmap in Hin.
  destruct Hin as ([k aliases] & -> & Hin). by exists aliases.
Qed.

Lemma fill_map_Some table nh c j :
  NoDup table.*1 →
  fill_map table nh !! c = Some j →
  ∃ aliases, (c, aliases) ∈ table ∧
    findIndex (includes (normalizeHeader <$> aliases)) nh = Some j.
Proof.
  intros Hnd Hj. destruct (decide (c ∈ table.*1)) as [Hin|Hnot].
  - destruct (table_key_entry _ _ Hin) as (aliases & Hentry).
    exists aliases. split; [done|].
    by rewrite <- (fill_map_lookup table nh c aliases).
  - unfold fill_map in Hj. by rewrite fill_step_foldl_notin in Hj.
Qed.

(** X4. Every entry of the header map is sound: its key is a canonical
    field of the alias table, its index is a column of the sheet whose
    header matches an alias of that field, and no column to its left
    does. *)
Theorem mapped_column_matches headers c j :
  hm_map (buildHeaderMap headers) !! c = Some j →
  ∃ aliases h,
    (c, aliases) ∈ headerAliases ∧
    headers !! j = Some h ∧
    header_matches aliases h ∧
    ∀ k hk, k < j → headers !! k = Some hk → ¬ header_matches aliases hk.
Proof.
  simpl. intros Hj.
  destruct (fill_map_Some _ _ _ _ headerAliases_NoDup Hj) as (aliases & Hentry & Hf).
  apply findIndex_Some in Hf. destruct Hf as [(x & Hx & Hpx) Hlt].
  rewrite list_lookup_fmap in Hx.
  destruct (headers !! j) as [h|] eqn:Hh; simplify_eq/=.
  exists aliases, h. split_and!; try done.
  - by apply includes_true.
  - intros k hk Hk Hhk Hm.
    assert (includes (normalizeHeader <$> aliases) (normalizeHeader hk) = false) as Hc.
    { apply (Hlt k); [done|]. by rewrite list_lookup_fmap, Hhk. }
    apply includes_false in Hc. by destruct Hc.
Qed.

Lemma mapped_column_matches_witness :
  ∃ aliases h,
    ("partNo"%string, aliases) ∈ headerAliases ∧
    (cell_string decimal <$> sample_headers) !! 3 = Some h ∧
    header_matches aliases h ∧
    ∀ k hk, k < 3 → (cell_string decimal <$> sample_headers) !! k = Some hk →
            ¬ header_matches aliases hk.
Proof.
  apply (mapped_column_matches (cell_string decimal <$> sample_headers)
           "partNo"%string 3).
  vm_compute. reflexivity.
Defined.

Lemma required_key_entry k :
  k ∈ requiredKeys → ∃ aliases, (k, aliases) ∈ headerAliases.
Proof.
  intros Hk. apply table_key_entry.
  revert k Hk. apply Forall_forall. apply (bool_decide_unpack _). by vm_compute.
Qed.

(** X5. The list of missing required fields names exactly the required
    fields none of whose aliases is matched by a header of the sheet. *)
Theorem missing_required_exact headers k :
  k ∈ missing_required (hm_map (buildHeaderMap headers)) ↔
  k ∈ requiredKeys ∧
  ∀ aliases h, (k, aliases) ∈ headerAliases → h ∈ headers →
               ¬ header_matches aliases h.
Proof.
  unfold missing_required. rewrite list_elem_of_filter. simpl. split.
  - intros [Hnone Hk]. split; [done|]. intros aliases h Hentry Hh Hm.
    rewrite (fill_map_lookup _ _ _ aliases) in Hnone
      by auto using headerAliases_NoDup.
    apply list_elem_of_lookup in Hh. destruct Hh as [i Hi].
    assert (includes (normalizeHeader <$> aliases) (normalizeHeader h) = false) as Hc.
    { apply (findIndex_None _ _ Hnone i). by rewrite list_lookup_fmap, Hi. }
    apply includes_false in Hc. by destruct Hc.
  - intros [Hk Hno]. split; [|done].
    destruct (required_key_entry k Hk) as (aliases & Hentry).
    rewrite (fill_map_lookup _ _ _ aliases) by auto using headerAliases_NoDup.
    destruct (findIndex _ _) as [j|] eqn:Hf; [|done].
    apply findIndex_Some in Hf. destruct Hf as [(x & Hx & Hpx) _].
    rewrite list_lookup_fmap in Hx.
    destruct (headers !! j) as [h|] eqn:Hh; simplify_eq/=.
    destruct (Hno aliases h Hentry).
    + by apply list_elem_of_lookup_2 in Hh.
    + by apply includes_true.
Qed.

(** X6. The header signature is a function of the multiset of normalized
    headers: two header rows whose normalized headers are the same up to
    order get the same signature, whatever white space or colon variant
    their raw headers use. *)
Theorem signature_of_normalized_multiset (sha256_hex : jstring → jstring)
    (headers headers' : list jstring) :
  normalizeHeader <$> headers ≡ₚ normalizeHeader <$> headers' →
  headerSignature sha256_hex (hm_normHeaders (buildHeaderMap headers)) =
  headerSignature sha256_hex (hm_normHeaders (buildHeaderMap headers')).
Proof.
  intros Hp. unfold headerSignature. simpl. do 2 f_equal.
  by apply sort_Permutation.
Qed.

Lemma signature_of_normalized_multiset_witness :
  headerSignature plain_digest
    (hm_normHeaders (buildHeaderMap [utf16 " 據 點 "; utf16 "備註："])) =
  headerSignature plain_digest
    (hm_normHeaders (buildHeaderMap [utf16 "備註:"; utf16 "據點"])).
Proof.
  apply (signature_of_normalized_multiset plain_digest).
  change ([normalizeHeader (utf16 " 據 點 ")] ++ [normalizeHeader (utf16 "備註：")]
          ≡ₚ normalizeHeader <$> [utf16 "備註:"; utf16 "據點"]).
  etrans; [apply Permutation_app_comm|].
  apply (bool_decide_unpack _). vm_compute. reflexivity.
Defined.

(** ** Decoding of a row, read back *)

Section Decoding.

Context {num : Type} (numToString : num → jstring).

Implicit Types (o : gmap jstring (Cell num)) (r : list (Cell num)).

Lemma trim_head s ch : head (trim s) = Some ch → is_ws ch = false.
Proof.
  unfold trim. rewrite head_reverse.
  destruct (trimStart_decompose (reverse (trimStart s))) as (p & Hs & _).
  intros Hlast.
  assert (last (reverse (trimStart s)) = Some ch) as Hl.
  { rewrite Hs, last_app, Hlast. done. }
  rewrite last_reverse in Hl.
  destruct (trimStart s) as [|c t] eqn:Ht; [done|].
  simpl in Hl. injection Hl as ->. by eapply trimStart_head.
Qed.

Lemma trim_last s ch : last (trim s) = Some ch → is_ws ch = false.
Proof.
  unfold trim. rewrite last_reverse.
  destruct (trimStart (reverse (trimStart s))) as [|c t] eqn:Ht; [done|].
  simpl. intros [= ->]. by eapply trimStart_head.
Qed.

(** X7. The text extracted for a mapped field has no white space at
    either end. *)
Theorem extracted_text_is_trimmed (map : gmap string nat) r k v :
  build_rawObj numToString map r !! k = Some v →
  (∀ ch, head v = Some ch → is_ws ch = false) ∧
  (∀ ch, last v = Some ch → is_ws ch = false).
Proof.
  unfold build_rawObj. rewrite lookup_fmap.
  destruct (map !! k) as [idx|]; [|done]. simpl. intros [= <-].
  split; intros ch; [apply trim_head|apply trim_last].
Qed.

(** X8. Every mapped field gets a text, also when the row is shorter than
    the header row: a mapped column beyond the end of the row is extracted
    as the empty string, and the extracted object has exactly the fields
    of the header map. *)
Theorem short_row_extracts_empty (map : gmap string nat) r k idx :
  map !! k = Some idx →
  length r ≤ idx →
  build_rawObj numToString map r !! k = Some [] ∧
  dom (build_rawObj numToString map r) = dom map.
Proof.
  intros Hk Hlen. unfold build_rawObj. split; [|apply dom_fmap_L].
  rewrite lookup_fmap, Hk. simpl. unfold cell_at.
  by rewrite (lookup_ge_None_2 r idx Hlen).
Qed.

Lemma obj_set_lookup_Some o k v h v' :
  obj_set o k v !! h = Some v' → o !! h = Some v' ∨ (h = k ∧ v' = v).
Proof.
  unfold obj_set. case_bool_decide; [by left|].
  destruct (decide (k = h)) as [->|Hne].
  - rewrite lookup_insert_eq. intros [= <-]. by right.
  - rewrite lookup_insert_ne by done. by left.
Qed.

Lemma collect_unknown_sound unknown r headers idx o h v :
  collect_unknown numToString unknown r headers idx o !! h = Some v →
  o !! h = Some v ∨
  ∃ j, headers !! j = Some h ∧ h ∈ unknown ∧ v = cell_at r (idx + j) ∧
       ¬ blank_cell numToString v.
Proof.
  revert idx o. induction headers as [|h0 headers IH]; intros idx o; simpl;
    [by left|].
  intros Hv. apply IH in Hv. destruct Hv as [Hv|(j & Hj & Hu & -> & Hnb)].
  - destruct (includes unknown h0) eqn:Hinc; [|by left].
    destruct (is_blank numToString (cell_at r idx)) eqn:Hb; [by left|].
    apply obj_set_lookup_Some in Hv. destruct Hv as [Hv|[-> ->]]; [by left|].
    right. exists 0. rewrite Nat.add_0_r. split_and!; try done.
    + by apply includes_true.
    + intros Hblank. apply is_blank_true_iff in Hblank. congruence.
  - right. exists (S j). replace (idx + S j) with (S idx + j) by lia. done.
Qed.

(** X9. Whatever the unknown mapping of a row holds under a header text
    is the cell, as it was and not blank, of a column of the row that
    carries this header text, and the header is an unknown one. *)
Theorem unknown_entries_are_cells headers r h v :
  build_unknownObj numToString (hm_unknown (buildHeaderMap headers)) headers r
    !! h = Some v →
  ∃ j, headers !! j = Some h ∧ is_unknown_header h = true ∧
       v = cell_at r j ∧ ¬ blank_cell numToString v.
Proof.
  unfold build_unknownObj. intros Hv. apply collect_unknown_sound in Hv.
  destruct Hv as [Hv|(j & Hj & Hu & Hv & Hnb)]; [by rewrite lookup_empty in Hv|].
  exists j. split_and!; try done.
  simpl in Hu. apply list_elem_of_filter in Hu. by destruct Hu.
Qed.

End Decoding.

Lemma extracted_text_is_trimmed_witness :
  (∀ ch, head (utf16 "A01") = Some ch → is_ws ch = false) ∧
  (∀ ch, last (utf16 "A01") = Some ch → is_ws ch = false).
Proof.
  apply (extracted_text_is_trimmed decimal (hm_map sample_map)
           [str "  A01 "] "branchCode"%string (utf16 "A01")).
  vm_compute. reflexivity.
Defined.

Lemma short_row_extracts_empty_witness :
  build_rawObj decimal (hm_map sample_map) [str "A01"; str "C100"]
    !! "qty"%string = Some [] ∧
  dom (build_rawObj decimal (hm_map sample_map) [str "A01"; str "C100"])
    = dom (hm_map sample_map).
Proof.
  apply (short_row_extracts_empty decimal (hm_map sample_map)
           [str "A01"; str "C100"] "qty"%string 4).
  - vm_compute. reflexivity.
  - simpl. lia.
Defined.

Lemma unknown_entries_are_cells_witness :
  ∃ j, (cell_string decimal <$> remark_headers) !! j = Some (utf16 "備註") ∧
       is_unknown_header (utf16 "備註") = true ∧
       str "y" = cell_at remark_row j ∧ ¬ blank_cell decimal (str "y").
Proof.
  apply (unknown_entries_are_cells decimal
           (cell_string decimal <$> remark_headers) remark_row
           (utf16 "備註") (str "y")).
  vm_compute. reflexivity.
Defined.

(** The later of the two 備註 columns is the one that is kept. *)
Lemma unknown_cell_retained_witness :
  build_unknownObj decimal
    (hm_unknown (buildHeaderMap (cell_string decimal <$> remark_headers)))
    (cell_string decimal <$> remark_headers) remark_row !! utf16 "備註"
  = Some (cell_at remark_row 2).
Proof.
  apply (unknown_cell_retained decimal
           (cell_string decimal <$> remark_headers) remark_row 2 (utf16 "備註")).
  - reflexivity.
  - vm_compute. reflexivity.
  - apply (bool_decide_unpack _). vm_compute. reflexivity.
  - apply (bool_decide_unpack _). vm_compute. reflexivity.
  - intros j Hj Hh. apply lookup_lt_Some in Hh. simpl in Hh. lia.
Defined.

(** ** The schema, read back *)

Section Schema.

Context {num : Type} (numToString : num → jstring) (finite_only : bool).

Implicit Types (s : Store num) (c : Counters) (raw : gmap string jstring).

Lemma z_string_min1_Some v x : z_string_min1 v = Some x → v = Some x ∧ x ≠ [].
Proof. destruct v as [[|ch t]|]; simpl; [done| |done]. by intros [= <-]. Qed.

Lemma z_string_min1_is_Some v : is_Some (z_string_min1 v) ↔ ∃ x, v = Some x ∧ x ≠ [].
Proof.
  split.
  - intros [x Hx]. exists x. by apply z_string_min1_Some.
  - intros (x & -> & Hx). destruct x; [done|]. by eexists.
Qed.


Lemma safeParse_required raw k :
  k ∈ requiredKeys →
  is_Some (safeParse finite_only raw) →
  ∃ v, raw !! k = Some v ∧ v ≠ [].
Proof.
  intros Hk. rewrite safeParse_is_Some, !z_string_min1_is_Some.
  intros (H1 & H2 & H3 & H4 & _).
  unfold requiredKeys in Hk. rewrite !elem_of_cons, elem_of_nil in Hk.
  destruct Hk as [->|[->|[->|[->|[]]]]]; done.
Qed.


Lemma safeParse_workOrderNo raw d :
  safeParse finite_only raw = Some d →
  d_workOrderNo d = raw !! "workOrderNo"%string.
Proof.
  intros Hd. revert Hd; unfold safeParse, z_string_optional;
    destruct (z_string_min1 (raw !! "branchCode"%string)); [|done];
    destruct (z_string_min1 (raw !! "checkoutNo"%string)); [|done];
    destruct (z_string_min1 (raw !! "itemId"%string)); [|done];
    destruct (z_string_min1 (raw !! "partNo"%string)); [|done];
    cbn [mbind option_bind];
    destruct (z_coerce_number_optional _ (raw !! "qty"%string)); [|done];
    destruct (z_coerce_number_optional _ (raw !! "saleAmount"%string)); [|done];
    destruct (z_coerce_number_optional _ (raw !! "costAmount"%string)); [|done];
    cbn [mbind option_bind]; by intros [= <-].
Qed.

(** X12. The texts of a parsed row are the extracted texts: the four
    required fields as they were extracted, and not empty; the four
    optional text fields as they were extracted, an empty text included, or
    absent when their column is not mapped. *)
Theorem parsed_texts_are_extracted raw d :
  safeParse finite_only raw = Some d →
  (raw !! "branchCode"%string = Some (d_branchCode d) ∧ d_branchCode d ≠ []) ∧
  (raw !! "checkoutNo"%string = Some (d_checkoutNo d) ∧ d_checkoutNo d ≠ []) ∧
  (raw !! "itemId"%string = Some (d_itemId d) ∧ d_itemId d ≠ []) ∧
  (raw !! "partNo"%string = Some (d_partNo d) ∧ d_partNo d ≠ []) ∧
  d_workOrderNo d = raw !! "workOrderNo"%string ∧
  d_partName d = raw !! "partName"%string ∧
  d_advisorName d = raw !! "advisorName"%string ∧
  d_salesName d = raw !! "salesName"%string.
Proof.
  intros Hd. pose proof (safeParse_Some _ _ _ Hd) as (H1 & H2 & H3 & H4 & _).
  apply z_string_min1_Some in H1, H2, H3, H4.
  destruct H1, H2, H3, H4. split_and!; try done.
  all: revert Hd; unfold safeParse, z_string_optional;
    destruct (z_string_min1 (raw !! "branchCode"%string)); [|done];
    destruct (z_string_min1 (raw !! "checkoutNo"%string)); [|done];
    destruct (z_string_min1 (raw !! "itemId"%string)); [|done];
    destruct (z_string_min1 (raw !! "partNo"%string)); [|done];
    cbn [mbind option_bind];
    destruct (z_coerce_number_optional _ (raw !! "qty"%string)); [|done];
    destruct (z_coerce_number_optional _ (raw !! "saleAmount"%string)); [|done];
    destruct (z_coerce_number_optional _ (raw !! "costAmount"%string)); [|done];
    cbn [mbind option_bind]; by intros [= <-].
Qed.


(** X14. The work-order key of a parsed row is there exactly when the
    work-order text is there and not empty, and is then the branch code,
    an underscore and the work-order text. *)
Theorem workOrderKey_of_parsed_row raw d :
  safeParse finite_only raw = Some d →
  workOrderKey d =
    match raw !! "workOrderNo"%string with
    | Some (ch :: w) => Some (d_branchCode d ++ [95%N] ++ ch :: w)
    | _ => None
    end.
Proof.
  intros Hd.
  pose proof (safeParse_workOrderNo raw d Hd) as Hw.
  pose proof (safeParse_Some _ _ _ Hd) as (Hb & _).
  apply z_string_min1_Some in Hb. destruct Hb as [_ Hb].
  unfold workOrderKey. rewrite Hw.
  destruct (raw !! "workOrderNo"%string) as [[|ch w]|]; try done.
  by destruct (d_branchCode d).
Qed.

(** X15. A row that is not blank but whose cell in the column of a
    required field is blank (a row too short to reach that column
    included) is staged and counted as an error, and the canonical table
    stays as it was. *)
Theorem blank_required_cell_rejects_row batch hm headers missing i cells c s
    k idx :
  ¬ blank_row numToString (Some cells) →
  k ∈ requiredKeys →
  hm_map hm !! k = Some idx →
  blank_cell numToString (cell_at cells idx) →
  ∃ s',
    run (process_row numToString finite_only batch hm headers missing i
           (Some cells) c) s
    = (s', inr {| c_errorCount := S (c_errorCount c);
                  c_stagedCount := S (c_stagedCount c);
                  c_canonicalCount := c_canonicalCount c |}) ∧
    stagingRow s' =
      stagingRow s ++ [staged_record numToString batch hm headers i cells] ∧
    partsSalesLine s' = partsSalesLine s.
Proof.
  intros Hnb Hk Hidx Hblank.
  apply is_processed_true_iff in Hnb. simpl in Hnb. apply negb_true_iff in Hnb.
  eexists. split.
  - apply process_row_rejected; [done|]. right.
    apply eq_None_not_Some. intros Hsome.
    destruct (safeParse_required _ k Hk Hsome) as (v & Hv & Hne).
    rewrite (blank_cell_extracted numToString _ _ _ _ Hidx Hblank) in Hv.
    by injection Hv as <-.
  - done.
Qed.

End Schema.

(** ** The upsert of a canonical line *)

Section Upsert.

Context {num : Type}.

Implicit Types (s : Store num) (d : CanonicalRow).

Lemma set_or_keep_idem {A} (x y : option A) :
  set_or_keep x (set_or_keep x y) = set_or_keep x y.
Proof. by destruct x. Qed.

Lemma set_or_keep_same {A} (x : option A) : set_or_keep x x = x.
Proof. by destruct x. Qed.

(** X16. Writing a parsed row a second time changes nothing, whichever
    batch writes it: the canonical table after the second upsert is the
    table after the first. *)
Theorem upsert_idempotent batch batch' d s :
  (run (partsSalesLine_upsert batch' d)
     (run (partsSalesLine_upsert batch d) s).1).1
  = (run (partsSalesLine_upsert batch d) s).1.
Proof.
  unfold partsSalesLine_upsert. cbn [run fst importBatch stagingRow partsSalesLine].
  rewrite lookup_insert_eq, insert_insert_eq. f_equal. f_equal.
  destruct (partsSalesLine s !! _) as [old|];
    cbn; rewrite ?set_or_keep_idem, ?set_or_keep_same; done.
Qed.

(** X17. An upsert writes one line, the one of its business key: every
    other line, the batches and the staging rows are as before.  A line
    that was there keeps the batch that created it and its key. *)
Theorem upsert_touches_one_line batch d s :
  let s' := (run (partsSalesLine_upsert batch d) s).1 in
  let key := (d_branchCode d, d_checkoutNo d, d_itemId d) in
  importBatch s' = importBatch s ∧
  stagingRow s' = stagingRow s ∧
  (∀ key', key' ≠ key → partsSalesLine s' !! key' = partsSalesLine s !! key') ∧
  dom (partsSalesLine s') = {[ key ]} ∪ dom (partsSalesLine s) ∧
  ∃ line,
    partsSalesLine s' !! key = Some line ∧
    psl_partNo line = d_partNo d ∧
    match partsSalesLine s !! key with
    | Some old =>
        psl_batchId line = psl_batchId old ∧
        (psl_branchCode line, psl_checkoutNo line, psl_itemId line)
          = (psl_branchCode old, psl_checkoutNo old, psl_itemId old)
    | None =>
        psl_batchId line = batch ∧
        (psl_branchCode line, psl_checkoutNo line, psl_itemId line) = key
    end.
Proof.
  cbn [run fst partsSalesLine_upsert importBatch stagingRow partsSalesLine].
  split_and!; try done.
  - intros key' Hne. by rewrite lookup_insert_ne.
  - apply dom_insert_L.
  - eexists. split; [apply lookup_insert_eq|].
    by destruct (partsSalesLine s !! _).
Qed.

(** X18. On a line that is already there, a field that the row has
    replaces the stored one, and a field that the row lacks (its column is
    not mapped) leaves the stored one: an upsert never empties an optional
    field. *)
Theorem upsert_keeps_absent_fields batch d s old :
  partsSalesLine s !! (d_branchCode d, d_checkoutNo d, d_itemId d) = Some old →
  ∃ line,
    partsSalesLine (run (partsSalesLine_upsert batch d) s).1
      !! (d_branchCode d, d_checkoutNo d, d_itemId d) = Some line ∧
    psl_workOrderNo line = set_or_keep (d_workOrderNo d) (psl_workOrderNo old) ∧
    psl_workOrderKey line = set_or_keep (workOrderKey d) (psl_workOrderKey old) ∧
    psl_partName line = set_or_keep (d_partName d) (psl_partName old) ∧
    psl_advisorName line = set_or_keep (d_advisorName d) (psl_advisorName old) ∧
    psl_salesName line = set_or_keep (d_salesName d) (psl_salesName old) ∧
    ∀ field, field ∈ numericKeys →
      line_number field line =
        match parsed_number field d with
        | Some n => Some n
        | None => line_number field old
        end.
Proof.
  intros Hold.
  cbn [run fst partsSalesLine_upsert importBatch stagingRow partsSalesLine].
  rewrite Hold. eexists. split; [apply lookup_insert_eq|].
  cbn. split_and!; try done.
  intros field Hf. unfold line_number, parsed_number.
  destruct (numeric_field_cases _ Hf) as [->|[->| ->]];
    repeat case_bool_decide; try done; cbn;
    by match goal with |- set_or_keep ?x _ = _ => destruct x end.
Qed.

End Upsert.

(** ** The loop and the import, row by row *)

Section Rows.

Context {num : Type} (numToString : num → jstring).
Context (sha256_hex : jstring → jstring) (finite_only : bool).

Implicit Types (s : Store num) (c : Counters) (r : option (list (Cell num))).
Implicit Types (rs data : list (option (list (Cell num)))).

(** The three ways through the body of the loop. *)
Lemma process_row_cases batch hm headers missing i r c s s1 c1 :
  run (process_row numToString finite_only batch hm headers missing i r c) s
    = (s1, inr c1) →
  (blank_row numToString r ∧ s1 = s ∧ c1 = c) ∨
  (∃ cells, r = Some cells ∧
     rejected_row numToString finite_only hm missing r ∧
     s1 = with_staged s (staged_record numToString batch hm headers i cells) ∧
     c1 = {| c_errorCount := S (c_errorCount c);
             c_stagedCount := S (c_stagedCount c);
             c_canonicalCount := c_canonicalCount c |}) ∨
  (∃ cells d, r = Some cells ∧
     accepted_row numToString finite_only hm missing r ∧
     safeParse finite_only (build_rawObj numToString (hm_map hm) cells) = Some d ∧
     s1 = (run (partsSalesLine_upsert batch d)
             (with_staged s (staged_record numToString batch hm headers i cells))).1 ∧
     c1 = {| c_errorCount := c_errorCount c;
             c_stagedCount := S (c_stagedCount c);
             c_canonicalCount := S (c_canonicalCount c) |}).
Proof.
  destruct (is_processed numToString r) eqn:Hpr.
  - pose proof Hpr as Hnb. apply is_processed_true_iff in Hnb.
    destruct r as [cells|]; [|done]. simpl in Hpr. apply negb_true_iff in Hpr.
    destruct (decide (missing = [])) as [Hm|Hm].
    + destruct (safeParse finite_only (build_rawObj numToString (hm_map hm) cells))
        as [d|] eqn:Hp.
      * rewrite (process_row_accepted _ _ _ _ _ _ _ _ _ _ d Hpr Hm Hp).
        intros [= <- <-]. right; right. exists cells, d.
        assert (accepted_row numToString finite_only hm missing (Some cells)).
        { unfold accepted_row. rewrite Hp. by split_and!. }
        by split_and!.
      * rewrite process_row_rejected by auto.
        intros [= <- <-]. right; left. exists cells.
        assert (rejected_row numToString finite_only hm missing (Some cells)).
        { split; [done|]. unfold accepted_row. rewrite Hp.
          intros (_ & _ & [? ?]). done. }
        by split_and!.
    + rewrite process_row_rejected by auto.
      intros [= <- <-]. right; left. exists cells.
      assert (rejected_row numToString finite_only hm missing (Some cells)).
      { split; [done|]. unfold accepted_row. intros (? & _). done. }
      by split_and!.
  - rewrite process_row_skipped by done. intros [= <- <-]. left.
    split; [|done]. apply not_true_iff_false in Hpr.
    rewrite is_processed_true_iff in Hpr. by apply dec_stable.
Qed.

(** Induction along the loop. *)
Lemma process_rows_induction batch hm headers missing
    (Q : nat → list (option (list (Cell num))) →
         Store num → Counters → Store num → Counters → Prop) :
  (∀ i s c, Q i [] s c s c) →
  (∀ i r rs s c s1 c1 s2 c2,
     run (process_row numToString finite_only batch hm headers missing i r c) s
       = (s1, inr c1) →
     Q (S i) rs s1 c1 s2 c2 →
     Q i (r :: rs) s c s2 c2) →
  ∀ rs i s c s' c',
    run (process_rows numToString finite_only batch hm headers missing i rs c) s
      = (s', inr c') →
    Q i rs s c s' c'.
Proof.
  intros Hnil Hcons rs. induction rs as [|r rs IH]; intros i s c s' c'.
  - simpl. intros [= <- <-]. apply Hnil.
  - cbn [process_rows]. rewrite run_bind.
    destruct (process_row_effect numToString finite_only batch hm headers
                missing i r c s) as (s1 & c1 & Hrun1 & _).
    rewrite Hrun1. intros Hrun2. eapply Hcons; [done|]. by apply IH.
Qed.

Lemma accepted_not_blank hm missing r :
  accepted_row numToString finite_only hm missing r → ¬ blank_row numToString r.
Proof. destruct r; simpl; [tauto|done]. Qed.

Lemma size_insert_le `{Countable K} {A} (k : K) (v : A) (m : gmap K A) :
  size (<[k := v]> m) ≤ S (size m).
Proof.
  destruct (m !! k) eqn:Hk.
  - rewrite map_size_insert_Some by done. lia.
  - rewrite map_size_insert_None by done. lia.
Qed.

(** What the loop leaves behind, row by row. *)
Lemma process_rows_exact batch hm headers missing rs i s c s' c' :
  run (process_rows numToString finite_only batch hm headers missing i rs c) s
    = (s', inr c') →
  stagingRow s' =
    stagingRow s ++ staged_records numToString batch hm headers i rs ∧
  c_canonicalCount c' =
    c_canonicalCount c +
    length (filter (accepted_row numToString finite_only hm missing) rs) ∧
  c_errorCount c' =
    c_errorCount c +
    length (filter (rejected_row numToString finite_only hm missing) rs) ∧
  c_stagedCount c' =
    c_stagedCount c + length (non_blank_rows numToString rs) ∧
  dom (partsSalesLine s) ⊆ dom (partsSalesLine s') ∧
  size (partsSalesLine s') + c_canonicalCount c
    ≤ size (partsSalesLine s) + c_canonicalCount c'.
Proof.
  revert rs i s c s' c'. apply process_rows_induction.
  - intros i s c. simpl. rewrite app_nil_r. split_and!; try done; lia.
  - intros i r rs s c s1 c1 s2 c2 Hrun (Hst & Hcan & Herr & Hstg & Hdom & Hsize).
    unfold non_blank_rows in *. rewrite !filter_cons.
    cbn [staged_records].
    apply process_row_cases in Hrun.
    destruct Hrun as [(Hblank & -> & ->)
                     |[(cells & -> & Hrej & -> & ->)
                      |(cells & d & -> & Hacc & Hd & -> & ->)]].
    + assert (¬ accepted_row numToString finite_only hm missing r) as Hna.
      { intros Ha. by apply accepted_not_blank in Ha. }
      assert (¬ rejected_row numToString finite_only hm missing r) as Hnr.
      { intros [? _]. done. }
      rewrite !decide_False by tauto.
      destruct r as [cells|]; [rewrite decide_True by done|]; simpl; done.
    + pose proof Hrej as [Hnb Hna].
      rewrite (decide_False (P := accepted_row _ _ _ _ _)) by done.
      rewrite (decide_True (P := rejected_row _ _ _ _ _)) by done.
      rewrite (decide_True (P := ¬ blank_row _ _)) by done.
      rewrite (decide_False (P := blank_row _ _)) by done.
      cbn in Hst, Hcan, Herr, Hstg, Hdom, Hsize |- *.
      rewrite Hst, <- app_assoc. split_and!; try done; lia.
    + pose proof (accepted_not_blank _ _ _ Hacc) as Hnb.
      assert (¬ rejected_row numToString finite_only hm missing (Some cells)) as Hnr.
      { intros [_ ?]. done. }
      rewrite (decide_True (P := accepted_row _ _ _ _ _)) by done.
      rewrite (decide_False (P := rejected_row _ _ _ _ _)) by done.
      rewrite (decide_True (P := ¬ blank_row _ _)) by done.
      rewrite (decide_False (P := blank_row _ _)) by done.
      cbn [run fst partsSalesLine_upsert with_staged importBatch stagingRow
           partsSalesLine c_errorCount c_stagedCount c_canonicalCount length]
        in Hst, Hcan, Herr, Hstg, Hdom, Hsize |- *.
      rewrite Hst, <- app_assoc. split_and!; try done; try lia.
      * etrans; [|exact Hdom]. rewrite dom_insert_L. apply union_subseteq_r.
      * match type of Hsize with
        | context [size (<[?k := ?v]> ?m)] =>
            pose proof (size_insert_le k v m)
        end.
        lia.
Qed.

Lemma staged_records_range batch hm headers rs i :
  Forall (λ row, sr_batchId row = batch ∧
                 i ≤ sr_rowIndex row < i + length rs)
    (staged_records numToString batch hm headers i rs).
Proof.
  revert i. induction rs as [|r rs IH]; intros i; simpl; [constructor|].
  apply Forall_app. split.
  - destruct r as [cells|]; [|constructor].
    destruct (decide _); constructor; [|constructor]. simpl. lia.
  - eapply Forall_impl; [apply IH|]. simpl. intros row [? ?]. split; [done|lia].
Qed.

Lemma staged_records_length batch hm headers rs i :
  length (staged_records numToString batch hm headers i rs)
  = length (non_blank_rows numToString rs).
Proof.
  revert i. unfold non_blank_rows.
  induction rs as [|r rs IH]; intros i; simpl; [done|].
  rewrite length_app, IH, filter_cons.
  destruct r as [cells|].
  - destruct (decide (blank_row numToString (Some cells))) as [Hb|Hb].
    + rewrite decide_False; [done|]. intros Hn. by apply Hn.
    + by rewrite decide_True.
  - rewrite decide_False; [done|]. intros Hn. by apply Hn.
Qed.

(** The import of a sheet with a header row and data rows, step by step:
    the batch is created under a new identifier, the loop runs from row 1
    on, and the batch is updated with the status and the counters. *)
Lemma import_unfold fileName row0 data s :
  data ≠ [] →
  ∃ b0 s1 c b1,
    run (process_rows numToString finite_only (fresh_id (importBatch s))
           (buildHeaderMap (cell_string numToString <$> row0))
           (cell_string numToString <$> row0)
           (missing_required
              (hm_map (buildHeaderMap (cell_string numToString <$> row0))))
           1 data (Build_Counters 0 0 0))
        {| importBatch := <[fresh_id (importBatch s) := b0]> (importBatch s);
           stagingRow := stagingRow s;
           partsSalesLine := partsSalesLine s |}
      = (s1, inr c) ∧
    run (importPartsSalesXlsx numToString sha256_hex finite_only fileName
           (Some row0 :: data)) s
      = ({| importBatch := <[fresh_id (importBatch s) := b1]> (importBatch s);
            stagingRow := stagingRow s1;
            partsSalesLine := partsSalesLine s1 |},
         inr {| batchId := fresh_id (importBatch s);
                stagedCount := c_stagedCount c;
                canonicalCount := c_canonicalCount c;
                errorCount := c_errorCount c;
                missingRequired :=
                  missing_required
                    (hm_map (buildHeaderMap (cell_string numToString <$> row0)));
                unknownColumns :=
                  hm_unknown (buildHeaderMap (cell_string numToString <$> row0)) |}) ∧
    b1 = {| ib_id := fresh_id (importBatch s);
            ib_reportType := "parts_sales";
            ib_mappingVersion := MappingVersion;
            ib_fileName := fileName;
            ib_headerSignature :=
              headerSignature sha256_hex
                (normalizeHeader <$> (cell_string numToString <$> row0));
            ib_headerColumns := cell_string numToString <$> row0;
            ib_unknownColumns :=
              hm_unknown (buildHeaderMap (cell_string numToString <$> row0));
            ib_status := if 0 <? c_errorCount c then STAGED else TRANSFORMED;
            ib_errorCount := Some (c_errorCount c);
            ib_stagedCount := Some (c_stagedCount c);
            ib_canonicalCount := Some (c_canonicalCount c) |}.
Proof.
  intros Hdata. unfold importPartsSalesXlsx.
  destruct (Nat.ltb_spec (length (Some row0 :: data)) 2) as [Hlt|_].
  { destruct data; [done|]. simpl in Hlt. lia. }
  set (headers := cell_string numToString <$> row0).
  set (hm := buildHeaderMap headers).
  set (missing := missing_required (hm_map hm)).
  rewrite run_bind. cbn [run importBatch_create ib_id].
  set (id := fresh_id (importBatch s)).
  set (b0 := Build_ImportBatch id _ _ _ _ _ _ _ _ _ _).
  set (s0 := Build_Store _ _ _).
  rewrite run_bind. change (drop 1 (Some row0 :: data)) with data.
  destruct (process_rows_effect numToString finite_only id hm headers missing
              data 1 (Build_Counters 0 0 0) s0)
    as (s1 & c & Hrun & Hb & _).
  rewrite Hrun, run_bind.
  assert (importBatch s1 !! id = Some b0) as Hid.
  { rewrite Hb. subst s0. cbn [importBatch]. apply lookup_insert_eq. }
  unfold importBatch_update at 1. cbn [run]. rewrite Hid. cbn [run mret Prisma_ret].
  eexists b0, s1, c, _. split; [exact Hrun|]. split; [|reflexivity].
  rewrite Hb. subst s0. cbn [importBatch]. by rewrite insert_insert_eq.
Qed.

End Rows.

(** ** What an import leaves in the store *)

Section Sheet.

Context {num : Type} (numToString : num → jstring).
Context (sha256_hex : jstring → jstring) (finite_only : bool).

Implicit Types (s : Store num) (data : list (option (list (Cell num)))).


(** X19. The staging rows of an import are added after the ones that were
    there, one for each row of the sheet that is not blank and in the order
    of the sheet; each carries the identifier of the new batch and the
    position of its row in the sheet, the header row being row 0. *)
Theorem staging_rows_follow_the_sheet fileName row0 data s :
  data ≠ [] →
  ∃ s' res,
    run (importPartsSalesXlsx numToString sha256_hex finite_only fileName
           (Some row0 :: data)) s = (s', inr res) ∧
    stagingRow s' =
      stagingRow s ++
      staged_records numToString (batchId res)
        (buildHeaderMap (cell_string numToString <$> row0))
        (cell_string numToString <$> row0) 1 data ∧
    Forall (λ row, sr_batchId row = batchId res ∧
                   1 ≤ sr_rowIndex row ≤ length data)
      (staged_records numToString (batchId res)
         (buildHeaderMap (cell_string numToString <$> row0))
         (cell_string numToString <$> row0) 1 data).
Proof.
  intros Hdata.
  destruct (import_unfold numToString sha256_hex finite_only fileName row0
              data s Hdata) as (b0 & s1 & c & b1 & Hloop & Hrun & _).
  apply process_rows_exact in Hloop. destruct Hloop as (Hst & _).
  eexists _, _. split; [exact Hrun|]. cbn [batchId stagingRow] in Hst |- *.
  split; [exact Hst|].
  eapply Forall_impl; [apply staged_records_range|].
  simpl. intros row [? ?]. split; [done|lia].
Qed.


(** X21. An import creates its batch under an identifier that no batch
    had, and leaves every other batch as it was. *)
Theorem import_adds_one_batch fileName row0 data s :
  data ≠ [] →
  ∃ s' res,
    run (importPartsSalesXlsx numToString sha256_hex finite_only fileName
           (Some row0 :: data)) s = (s', inr res) ∧
    importBatch s !! batchId res = None ∧
    (∀ id, id ≠ batchId res → importBatch s' !! id = importBatch s !! id) ∧
    dom (importBatch s') = {[ batchId res ]} ∪ dom (importBatch s).
Proof.
  intros Hdata.
  destruct (import_unfold numToString sha256_hex finite_only fileName row0
              data s Hdata) as (b0 & s1 & c & b1 & _ & Hrun & _).
  eexists _, _. split; [exact Hrun|]. cbn [batchId importBatch].
  split_and!.
  - apply fresh_id_fresh.
  - intros id Hne. by rewrite lookup_insert_ne.
  - apply dom_insert_L.
Qed.

(** X22. The batch that an import leaves holds what the import was given
    and what it returns: the file name, the header row as texts, the
    unknown columns of the result, the signature of the normalized headers,
    the report type parts_sales and the mapping version v1. *)
Theorem batch_describes_the_sheet fileName row0 data s :
  data ≠ [] →
  ∃ s' res b,
    run (importPartsSalesXlsx numToString sha256_hex finite_only fileName
           (Some row0 :: data)) s = (s', inr res) ∧
    importBatch s' !! batchId res = Some b ∧
    ib_id b = batchId res ∧
    ib_fileName b = fileName ∧
    ib_headerColumns b = cell_string numToString <$> row0 ∧
    ib_unknownColumns b = unknownColumns res ∧
    ib_headerSignature b =
      headerSignature sha256_hex
        (normalizeHeader <$> (cell_string numToString <$> row0)) ∧
    ib_reportType b = "parts_sales"%string ∧
    ib_mappingVersion b = "v1"%string.
Proof.
  intros Hdata.
  destruct (import_unfold numToString sha256_hex finite_only fileName row0
              data s Hdata) as (b0 & s1 & c & b1 & _ & Hrun & ->).
  eexists _, _, _. split; [exact Hrun|]. cbn [batchId importBatch unknownColumns].
  split; [apply lookup_insert_eq|]. split_and!; reflexivity.
Qed.

(** X23. An import removes no canonical line, and adds at most as many
    lines as it counts canonical rows. *)
Theorem canonical_table_grows fileName row0 data s :
  data ≠ [] →
  ∃ s' res,
    run (importPartsSalesXlsx numToString sha256_hex finite_only fileName
           (Some row0 :: data)) s = (s', inr res) ∧
    dom (partsSalesLine s) ⊆ dom (partsSalesLine s') ∧
    size (partsSalesLine s') ≤ size (partsSalesLine s) + canonicalCount res.
Proof.
  intros Hdata.
  destruct (import_unfold numToString sha256_hex finite_only fileName row0
              data s Hdata) as (b0 & s1 & c & b1 & Hloop & Hrun & _).
  apply process_rows_exact in Hloop.
  destruct Hloop as (_ & _ & _ & _ & Hdom & Hsize).
  eexists _, _. split; [exact Hrun|].
  cbn [partsSalesLine canonicalCount c_canonicalCount] in Hdom, Hsize |- *.
  split; [done|lia].
Qed.


End Sheet.

(** ** The upload route *)

Section RouteProperties.

Context {num : Type} (numToString : num → jstring).
Context (sha256_hex : jstring → jstring) (finite_only : bool).
Context (read_first_sheet : list N → Exn + list (option (list (Cell num)))).

Implicit Types (s : Store num) (file : FormDataEntry).

(** X25. The route answers with status 400 exactly when the form holds no
    file under the name file (nothing, or a text); it then writes nothing.
    Whatever goes wrong with a file that is there is never answered with
    400. *)
Theorem POST_bad_request_iff_no_file file s :
  (∃ s' b, run (POST numToString sha256_hex finite_only read_first_sheet file) s
           = (s', inr {| status := 400; body := b |})) ↔
  (∀ name content, file ≠ FileEntry name content).
Proof.
  split.
  - intros (s' & b & Hrun) name content ->. revert Hrun.
    unfold POST. rewrite run_bind.
    destruct (run _ s) as [s1 [e|res]]; [done|]. simpl. by intros [= _ ? _].
  - intros Hno. destruct file as [|text|name content];
      [by eexists _, _..|by destruct (Hno name content)].
Qed.

(** X26. A file whose first sheet has a header row and data rows is
    answered with status 200 and the result of the import; the batch that
    the result names is in the store, under the name of the uploaded file,
    and the counters of the result add up. *)
Theorem POST_imports_the_file name content row0 data s :
  read_first_sheet content = inr (Some row0 :: data) →
  data ≠ [] →
  ∃ s' res b,
    run (POST numToString sha256_hex finite_only read_first_sheet
           (FileEntry name content)) s
      = (s', inr {| status := 200; body := ResultBody res |}) ∧
    importBatch s' !! batchId res = Some b ∧
    ib_fileName b = Some name ∧
    stagedCount res = canonicalCount res + errorCount res.
Proof.
  intros Hread Hdata.
  destruct (import_unfold numToString sha256_hex finite_only (Some name) row0
              data s Hdata) as (b0 & s1 & c & b1 & Hloop & Hrun & ->).
  destruct (import_completes numToString sha256_hex finite_only (Some name)
              row0 data s Hdata)
    as (s2 & res2 & b2 & Hrun2 & _ & _ & _ & _ & _ & Hsum & _).
  rewrite Hrun in Hrun2. injection Hrun2 as <- <-.
  unfold POST, importPartsSalesXlsx_buffer. rewrite Hread, run_bind, Hrun.
  eexists _, _, _. split; [reflexivity|]. cbn [batchId importBatch].
  split; [apply lookup_insert_eq|]. split; [reflexivity|]. exact Hsum.
Qed.

(** X27. The route catches nothing: when the workbook cannot be read, or
    when its first sheet has fewer than two rows, the error leaves the
    handler as it was thrown and no table has changed. *)
Theorem POST_lets_errors_through name content s :
  (∀ e, read_first_sheet content = inl e →
     run (POST numToString sha256_hex finite_only read_first_sheet
            (FileEntry name content)) s = (s, inl e)) ∧
  (∀ rows, read_first_sheet content = inr rows → length rows < 2 →
     run (POST numToString sha256_hex finite_only read_first_sheet
            (FileEntry name content)) s = (s, inl no_data_rows)).
Proof.
  split.
  - intros e Hread. unfold POST, importPartsSalesXlsx_buffer.
    by rewrite Hread, run_bind.
  - intros rows Hread Hlen. unfold POST, importPartsSalesXlsx_buffer.
    by rewrite Hread, run_bind, import_no_data_rows.
Qed.

End RouteProperties.

(** ** The further properties on sample sheets *)

Lemma parsed_texts_are_extracted_witness :
  let raw := build_rawObj decimal (hm_map sample_map) sample_row in
  (raw !! "branchCode"%string = Some (d_branchCode sample_parsed) ∧
   d_branchCode sample_parsed ≠ []) ∧
  (raw !! "checkoutNo"%string = Some (d_checkoutNo sample_parsed) ∧
   d_checkoutNo sample_parsed ≠ []) ∧
  (raw !! "itemId"%string = Some (d_itemId sample_parsed) ∧
   d_itemId sample_parsed ≠ []) ∧
  (raw !! "partNo"%string = Some (d_partNo sample_parsed) ∧
   d_partNo sample_parsed ≠ []) ∧
  d_workOrderNo sample_parsed = raw !! "workOrderNo"%string ∧
  d_partName sample_parsed = raw !! "partName"%string ∧
  d_advisorName sample_parsed = raw !! "advisorName"%string ∧
  d_salesName sample_parsed = raw !! "salesName"%string.
Proof.
  apply (parsed_texts_are_extracted false
           (build_rawObj decimal (hm_map sample_map) sample_row) sample_parsed).
  vm_compute. reflexivity.
Defined.


Lemma workOrderKey_of_parsed_row_witness :
  workOrderKey work_order_parsed =
    match work_order_raw !! "workOrderNo"%string with
    | Some (ch :: w) => Some (d_branchCode work_order_parsed ++ [95%N] ++ ch :: w)
    | _ => None
    end.
Proof.
  apply (workOrderKey_of_parsed_row false work_order_raw work_order_parsed).
  vm_compute. reflexivity.
Defined.

Lemma blank_required_cell_rejects_row_witness :
  ∃ s',
    run (process_row decimal false 0 sample_map
           (cell_string decimal <$> sample_headers) [] 1 (Some row_blank_itemId)
           (Build_Counters 0 0 0)) empty_store
    = (s', inr (Build_Counters 1 1 0)) ∧
    stagingRow s' =
      stagingRow empty_store ++
        [staged_record decimal 0 sample_map
           (cell_string decimal <$> sample_headers) 1 row_blank_itemId] ∧
    partsSalesLine s' = partsSalesLine empty_store.
Proof.
  apply (blank_required_cell_rejects_row decimal false 0 sample_map
           (cell_string decimal <$> sample_headers) [] 1 row_blank_itemId
           (Build_Counters 0 0 0) empty_store "itemId"%string 2).
  - apply (bool_decide_unpack _). vm_compute. reflexivity.
  - apply (bool_decide_unpack _). vm_compute. reflexivity.
  - vm_compute. reflexivity.
  - apply (bool_decide_unpack _). vm_compute. reflexivity.
Defined.

(** The row with the work order comes after the sample row, under the
    same key: the work order is set and the quantity stays. *)
Lemma upsert_keeps_absent_fields_witness :
  ∃ line,
    partsSalesLine (run (partsSalesLine_upsert 1 work_order_parsed) sample_store).1
      !! (d_branchCode work_order_parsed, d_checkoutNo work_order_parsed,
          d_itemId work_order_parsed) = Some line ∧
    psl_workOrderNo line =
      set_or_keep (d_workOrderNo work_order_parsed) (psl_workOrderNo sample_line) ∧
    psl_workOrderKey line =
      set_or_keep (workOrderKey work_order_parsed) (psl_workOrderKey sample_line) ∧
    psl_partName line =
      set_or_keep (d_partName work_order_parsed) (psl_partName sample_line) ∧
    psl_advisorName line =
      set_or_keep (d_advisorName work_order_parsed) (psl_advisorName sample_line) ∧
    psl_salesName line =
      set_or_keep (d_salesName work_order_parsed) (psl_salesName sample_line) ∧
    ∀ field, field ∈ numericKeys →
      line_number field line =
        match parsed_number field work_order_parsed with
        | Some n => Some n
        | None => line_number field sample_line
        end.
Proof.
  apply (upsert_keeps_absent_fields 1 work_order_parsed sample_store sample_line).
  vm_compute. reflexivity.
Defined.

Lemma staging_rows_follow_the_sheet_witness :
  ∃ s' res,
    run_import sample_sheet = (s', inr res) ∧
    stagingRow s' =
      stagingRow empty_store ++
      staged_records decimal (batchId res) sample_map
        (cell_string decimal <$> sample_headers) 1 [Some sample_row] ∧
    Forall (λ row, sr_batchId row = batchId res ∧
                   1 ≤ sr_rowIndex row ≤ length [Some sample_row])
      (staged_records decimal (batchId res) sample_map
         (cell_string decimal <$> sample_headers) 1 [Some sample_row]).
Proof.
  apply (staging_rows_follow_the_sheet decimal plain_digest false None
           sample_headers [Some sample_row] empty_store).
  discriminate.
Defined.


Lemma import_adds_one_batch_witness :
  ∃ s' res,
    run_import sample_sheet = (s', inr res) ∧
    importBatch empty_store !! batchId res = None ∧
    (∀ id, id ≠ batchId res →
           importBatch s' !! id = importBatch empty_store !! id) ∧
    dom (importBatch s') = {[ batchId res ]} ∪ dom (importBatch empty_store).
Proof.
  apply (import_adds_one_batch decimal plain_digest false None
           sample_headers [Some sample_row] empty_store).
  discriminate.
Defined.

Lemma batch_describes_the_sheet_witness :
  ∃ s' res b,
    run_import sample_sheet = (s', inr res) ∧
    importBatch s' !! batchId res = Some b ∧
    ib_id b = batchId res ∧
    ib_fileName b = None ∧
    ib_headerColumns b = cell_string decimal <$> sample_headers ∧
    ib_unknownColumns b = unknownColumns res ∧
    ib_headerSignature b =
      headerSignature plain_digest
        (normalizeHeader <$> (cell_string decimal <$> sample_headers)) ∧
    ib_reportType b = "parts_sales"%string ∧
    ib_mappingVersion b = "v1"%string.
Proof.
  apply (batch_describes_the_sheet decimal plain_digest false None
           sample_headers [Some sample_row] empty_store).
  discriminate.
Defined.

Lemma canonical_table_grows_witness :
  ∃ s' res,
    run_import sample_sheet = (s', inr res) ∧
    dom (partsSalesLine empty_store) ⊆ dom (partsSalesLine s') ∧
    size (partsSalesLine s') ≤ size (partsSalesLine empty_store) + canonicalCount res.
Proof.
  apply (canonical_table_grows decimal plain_digest false None
           sample_headers [Some sample_row] empty_store).
  discriminate.
Defined.


Lemma POST_imports_the_file_witness :
  ∃ s' res b,
    run (POST decimal plain_digest false sample_reader
           (FileEntry (utf16 "sales.xlsx") [1%N])) empty_store
      = (s', inr {| status := 200; body := ResultBody res |}) ∧
    importBatch s' !! batchId res = Some b ∧
    ib_fileName b = Some (utf16 "sales.xlsx") ∧
    stagedCount res = canonicalCount res + errorCount res.
Proof.
  apply (POST_imports_the_file decimal plain_digest false sample_reader
           (utf16 "sales.xlsx") [1%N] sample_headers [Some sample_row]
           empty_store).
  - reflexivity.
  - discriminate.
Defined.

Lemma POST_lets_errors_through_witness :
  run (POST decimal plain_digest false sample_reader
         (FileEntry (utf16 "notes.txt") [2%N])) empty_store
    = (empty_store, inl (Error (utf16 "not a workbook"))) ∧
  run (POST decimal plain_digest false sample_reader
         (FileEntry (utf16 "empty.xlsx") [0%N])) empty_store
    = (empty_store, inl no_data_rows).
Proof.
  split.
  - apply (proj1 (POST_lets_errors_through decimal plain_digest false
                    sample_reader (utf16 "notes.txt") [2%N] empty_store)).
    reflexivity.
  - apply (proj2 (POST_lets_errors_through decimal plain_digest false
                    sample_reader (utf16 "empty.xlsx") [0%N] empty_store))
      with (rows := [Some sample_headers]).
    + reflexivity.
    + simpl. lia.
Defined.

(** ** The canonical table as a fold of upserts *)

Section Table.

Context {num : Type} (numToString : num → jstring).
Context (sha256_hex : jstring → jstring) (finite_only : bool).

Implicit Types (s : Store num) (d : CanonicalRow) (l : PartsSalesLine).
Implicit Types (T : gmap (jstring * jstring * jstring) PartsSalesLine).
Implicit Types (k : jstring * jstring * jstring).

Lemma set_or_keep_None {A} (x : option A) : set_or_keep x None = x.
Proof. by destruct x. Qed.

Lemma upsert_table_insert batch T d :
  upsert_table batch T d =
  <[business_key d :=
      updated_line d (default (bare_line batch d) (T !! business_key d))]> T.
Proof.
  unfold upsert_table, business_key.
  cbn [run fst partsSalesLine_upsert partsSalesLine].
  f_equal. destruct (T !! _) as [old|]; [done|].
  unfold updated_line, bare_line. cbn. by rewrite !set_or_keep_None.
Qed.

Lemma upsert_partsSalesLine batch d s :
  partsSalesLine (run (partsSalesLine_upsert batch d) s).1
  = upsert_table batch (partsSalesLine s) d.
Proof. reflexivity. Qed.

Lemma process_rows_table batch hm headers missing rs i s c s' c' :
  run (process_rows numToString finite_only batch hm headers missing i rs c) s
    = (s', inr c') →
  partsSalesLine s' =
    foldl (upsert_table batch) (partsSalesLine s)
      (parsed_rows numToString finite_only hm missing rs).
Proof.
  revert rs i s c s' c'. apply process_rows_induction; [done|].
  intros i r rs s c s1 c1 s2 c2 Hrun ->.
  unfold parsed_rows. cbn [omap list_omap].
  apply process_row_cases in Hrun.
  destruct Hrun as [(Hblank & -> & ->)
                   |[(cells & -> & [Hnb Hna] & -> & ->)
                    |(cells & d & -> & Hacc & Hd & -> & ->)]].
  - destruct r as [cells|]; [|done].
    rewrite decide_False; [done|]. intros Ha. by apply accepted_not_blank in Ha.
  - by rewrite decide_False.
  - rewrite decide_True, Hd by done. cbn [foldl].
    by rewrite upsert_partsSalesLine.
Qed.


(** *** Upserting the same rows again *)

(** What a run of upserts does to the line of one key. *)
Lemma foldl_upsert_lookup batch ds T k :
  foldl (upsert_table batch) T ds !! k =
  foldl (λ o d, if decide (business_key d = k)
                then Some (updated_line d (default (bare_line batch d) o))
                else o) (T !! k) ds.
Proof.
  revert T. induction ds as [|d ds IH]; intros T; [done|].
  cbn [foldl]. rewrite IH, upsert_table_insert. f_equal.
  destruct (decide (business_key d = k)) as [<-|Hne].
  - by rewrite lookup_insert_eq.
  - by rewrite lookup_insert_ne.
Qed.

Lemma foldl_line_Some batch k ds l :
  foldl (λ o d, if decide (business_key d = k)
                then Some (updated_line d (default (bare_line batch d) o))
                else o) (Some l) ds
  = Some (foldl (λ l d, if decide (business_key d = k)
                        then updated_line d l else l) l ds).
Proof.
  revert l. induction ds as [|d ds IH]; intros l; [done|].
  cbn [foldl]. destruct (decide (business_key d = k)); by rewrite IH.
Qed.

Lemma foldl_line_shape batch k ds o :
  (Forall (λ d, business_key d ≠ k) ds) ∨
  (∃ x, foldl (λ o d, if decide (business_key d = k)
                      then Some (updated_line d (default (bare_line batch d) o))
                      else o) o ds
        = Some (foldl (λ l d, if decide (business_key d = k)
                              then updated_line d l else l) x ds)).
Proof.
  revert o. induction ds as [|d ds IH]; intros o; [left; constructor|].
  cbn [foldl]. destruct (decide (business_key d = k)) as [Hk|Hk].
  - right. exists (default (bare_line batch d) o). by rewrite foldl_line_Some.
  - destruct (IH o) as [Hall|(x & Hx)]; [left; by constructor|].
    right. by exists x.
Qed.

Lemma foldl_line_no_match batch k ds o :
  Forall (λ d, business_key d ≠ k) ds →
  foldl (λ o d, if decide (business_key d = k)
                then Some (updated_line d (default (bare_line batch d) o))
                else o) o ds = o.
Proof.
  induction 1 as [|d ds Hd _ IH]; [done|].
  cbn [foldl]. by rewrite decide_False.
Qed.

(** A projection on which every step is the identity or a constant takes,
    after a run of steps, the same value as after two such runs. *)
Lemma foldl_projection_settles {L A D} (π : L → A) (step : L → D → L) :
  (∀ e, (∀ x, π (step x e) = π x) ∨ (∃ a, ∀ x, π (step x e) = a)) →
  ∀ es x, π (foldl step (foldl step x es) es) = π (foldl step x es).
Proof.
  intros Hstep es.
  assert ((∀ x, π (foldl step x es) = π x) ∨
          (∃ a, ∀ x, π (foldl step x es) = a)) as [Hid|[a Ha]].
  { induction es as [|e es IH]; [by left|]. cbn [foldl].
    destruct IH as [Hid|[a Ha]]; [|right; by exists a].
    destruct (Hstep e) as [He|[a Ha]].
    - left. intros x. by rewrite Hid.
    - right. exists a. intros x. by rewrite Hid. }
  - intros x. by rewrite Hid.
  - intros x. by rewrite !Ha.
Qed.

Lemma line_eq l l' :
  psl_batchId l = psl_batchId l' →
  psl_branchCode l = psl_branchCode l' →
  psl_checkoutNo l = psl_checkoutNo l' →
  psl_itemId l = psl_itemId l' →
  psl_workOrderNo l = psl_workOrderNo l' →
  psl_workOrderKey l = psl_workOrderKey l' →
  psl_partNo l = psl_partNo l' →
  psl_partName l = psl_partName l' →
  psl_qty l = psl_qty l' →
  psl_saleAmount l = psl_saleAmount l' →
  psl_costAmount l = psl_costAmount l' →
  psl_advisorName l = psl_advisorName l' →
  psl_salesName l = psl_salesName l' →
  l = l'.
Proof. destruct l, l'; simpl; intros; by subst. Qed.

Lemma foldl_updated_line_settles k ds l :
  let run_updates :=
    foldl (λ l d, if decide (business_key d = k) then updated_line d l else l) in
  run_updates (run_updates l ds) ds = run_updates l ds.
Proof.
  intros run_updates. subst run_updates.
  apply line_eq; apply foldl_projection_settles; intros d;
    destruct (decide (business_key d = k)); try (by left); simpl;
    try (by left);
    lazymatch goal with
    | |- context [set_or_keep ?v _] =>
        destruct v as [a|]; [right; by exists (Some a)|by left]
    | |- _ => right; by exists (d_partNo d)
    end.
Qed.

(** The same rows upserted a second time, by whatever batch, leave the
    table as the first time left it. *)
Lemma foldl_upsert_twice batch batch' ds T :
  foldl (upsert_table batch') (foldl (upsert_table batch) T ds) ds
  = foldl (upsert_table batch) T ds.
Proof.
  apply map_eq. intros k. rewrite (foldl_upsert_lookup batch').
  rewrite (foldl_upsert_lookup batch).
  destruct (foldl_line_shape batch k ds (T !! k)) as [Hno|(x & ->)].
  - by rewrite !foldl_line_no_match.
  - rewrite foldl_line_Some. f_equal. apply foldl_updated_line_settles.
Qed.

(** X29. Importing the same sheet a second time leaves the canonical
    table as the first import left it, line for line; the second import
    gets a batch of its own, returns the same counters and adds its own
    staging rows. *)
Theorem reimport_keeps_canonical_table fileName fileName' row0 data s :
  data ≠ [] →
  ∃ s1 res1 s2 res2,
    run (importPartsSalesXlsx numToString sha256_hex finite_only fileName
           (Some row0 :: data)) s = (s1, inr res1) ∧
    run (importPartsSalesXlsx numToString sha256_hex finite_only fileName'
           (Some row0 :: data)) s1 = (s2, inr res2) ∧
    partsSalesLine s2 = partsSalesLine s1 ∧
    batchId res2 ≠ batchId res1 ∧
    stagedCount res2 = stagedCount res1 ∧
    canonicalCount res2 = canonicalCount res1 ∧
    errorCount res2 = errorCount res1 ∧
    length (stagingRow s2) = length (stagingRow s1) + stagedCount res1.
Proof.
  intros Hdata.
  destruct (import_unfold numToString sha256_hex finite_only fileName row0
              data s Hdata) as (b0 & s1 & c1 & b1 & Hloop1 & Hrun1 & _).
  set (t1 := Build_Store _ _ _) in Hrun1.
  destruct (import_unfold numToString sha256_hex finite_only fileName' row0
              data t1 Hdata) as (b0' & s2 & c2 & b2 & Hloop2 & Hrun2 & _).
  eexists _, _, _, _. split; [exact Hrun1|]. split; [exact Hrun2|].
  pose proof Hloop1 as Ht1. apply process_rows_table in Ht1.
  pose proof Hloop2 as Ht2. apply process_rows_table in Ht2.
  apply process_rows_exact in Hloop1. destruct Hloop1 as (_ & Hc1 & He1 & Hs1 & _).
  apply process_rows_exact in Hloop2. destruct Hloop2 as (Hst2 & Hc2 & He2 & Hs2 & _).
  cbn [partsSalesLine stagingRow importBatch batchId stagedCount canonicalCount
       errorCount c_errorCount c_stagedCount c_canonicalCount]
    in Ht1, Ht2, Hc1, He1, Hs1, Hst2, Hc2, He2, Hs2 |- *.
  subst t1. cbn [partsSalesLine stagingRow importBatch] in Ht2, Hst2 |- *.
  split_and!.
  - rewrite Ht2, Ht1. apply foldl_upsert_twice.
  - intros Heq. pose proof (fresh_id_fresh
      (<[fresh_id (importBatch s):=b1]> (importBatch s))) as Hfresh.
    rewrite Heq, lookup_insert_eq in Hfresh. done.
  - lia.
  - lia.
  - lia.
  - rewrite Hst2, length_app, staged_records_length. lia.
Qed.

End Table.


Lemma reimport_keeps_canonical_table_witness :
  ∃ s1 res1 s2 res2,
    run_import sample_sheet = (s1, inr res1) ∧
    run (importPartsSalesXlsx decimal plain_digest false None sample_sheet) s1
      = (s2, inr res2) ∧
    partsSalesLine s2 = partsSalesLine s1 ∧
    batchId res2 ≠ batchId res1 ∧
    stagedCount res2 = stagedCount res1 ∧
    canonicalCount res2 = canonicalCount res1 ∧
    errorCount res2 = errorCount res1 ∧
    length (stagingRow s2) = length (stagingRow s1) + stagedCount res1.
Proof.
  apply (reimport_keeps_canonical_table decimal plain_digest false None None
           sample_headers [Some sample_row] empty_store).
  discriminate.
Defined.
